(** * adcircpy.forcing.tides.tpxo: the TPXO tidal-atlas lookup

    A shallow embedding of [adcircpy/forcing/tides/tpxo.py] and the
    properties of its two public lookups, [get_amplitude] and [get_phase].

    Conventions of the embedding.
    - A float64 is an exact rational ([Q]); rounding is not modelled.  The
      one place where the code can produce a NaN (the mean of an empty
      array of differences) is kept: see [float].
    - A numpy array is a list; a 2-D array is a list of rows and a 3-D array
      a list of 2-D arrays, flattened in C order.
    - A Python exception is a value of [exn]; a call that raises returns
      [Err e].  A lookup that returns gives a list of [float], since
      [griddata] answers with NaN where it has no point to take a value
      from.
    - Methods run in a small state-and-error monad over the instance
      ([M]), so that what a call does to [self] is part of its result. *)

From Stdlib Require Import String Ascii.
From Stdlib Require Import List Bool Arith Lia.
From Stdlib Require Import ZArith QArith Qminmax Lqa.
Import ListNotations.

Local Open Scope string_scope.
Local Open Scope list_scope.
Local Open Scope Q_scope.

(* ================================================================== *)
(** ** Exceptions and results *)

(** The exceptions a run of the module can end with, one constructor per
    raising site. *)
Inductive exn : Type :=
  | FileNotFoundError (msg : string)
      (* the [raise] of [TPXO.__init__], or netCDF4 failing to open *)
  | ValueError_not_in_list (name : string)
      (* [list.index]: the name is not in the list *)
  | ValueError_zero_size_reduction
      (* [np.min] / [np.max] of an array of size 0 *)
  | ValueError_shape_mismatch
      (* numpy broadcasting of coordinate arrays of different lengths *)
  | ValueError_different_number
      (* scipy: different number of values and points *)
  | IndexError.
      (* numpy indexing out of bounds *)


Inductive result (A : Type) : Type :=
  | Ok (a : A)
  | Err (e : exn).
Arguments Ok {A} a.
Arguments Err {A} e.

Definition is_ok {A} (r : result A) : bool :=
  match r with Ok _ => true | Err _ => false end.

Fixpoint traverse {A B} (f : A -> result B) (l : list A) : result (list B) :=
  match l with
  | [] => Ok []
  | a :: r =>
      match f a with
      | Err e => Err e
      | Ok b => match traverse f r with
                | Err e => Err e
                | Ok bs => Ok (b :: bs)
                end
      end
  end.

(* ================================================================== *)
(** ** Floats that may be NaN *)

Inductive float : Type :=
  | Fin (q : Q)
  | NaN.

Definition Qlt_bool (a b : Q) : bool := negb (Qle_bool b a).

(** [2 * d] *)
Definition fdouble (d : float) : float :=
  match d with Fin q => Fin (2 * q) | NaN => NaN end.

Definition fsub (a : Q) (d : float) : float :=
  match d with Fin q => Fin (a - q) | NaN => NaN end.

Definition fadd (a : Q) (d : float) : float :=
  match d with Fin q => Fin (a + q) | NaN => NaN end.

(** [x >= t] and [x <= t]; a comparison with NaN is false. *)
Definition fge (x : Q) (t : float) : bool :=
  match t with Fin q => Qle_bool q x | NaN => false end.

Definition fle (x : Q) (t : float) : bool :=
  match t with Fin q => Qle_bool x q | NaN => false end.

(* ================================================================== *)
(** ** The numpy operations the module uses *)

Module np.

(** [a.flatten()] of a 2-D array, C order. *)
Definition flatten (a : list (list Q)) : list Q := concat a.

(** [np.meshgrid(xs, ys, indexing='ij')]: two arrays of shape
    [(len xs, len ys)], [X[i][j] = xs[i]] and [Y[i][j] = ys[j]]. *)
Definition meshgrid_ij (xs ys : list Q) : list (list Q) * list (list Q) :=
  (map (fun xi => map (fun _ => xi) ys) xs, map (fun _ => ys) xs).

(** [np.diff(a)]: [a[k+1] - a[k]]. *)
Fixpoint diff (a : list Q) : list Q :=
  match a with
  | [] => []
  | u :: r => match r with
              | [] => []
              | v :: _ => (v - u) :: diff r
              end
  end.

Definition sum (a : list Q) : Q := fold_right Qplus 0 a.

(** [np.mean(a)]: NaN (and a warning) on an empty array. *)
Definition mean (a : list Q) : float :=
  match a with
  | [] => NaN
  | _ => Fin (sum a / inject_Z (Z.of_nat (length a)))
  end.

(** [np.min(a)], [np.max(a)]: raise on an array of size 0. *)
Definition min (a : list Q) : result Q :=
  match a with
  | [] => Err ValueError_zero_size_reduction
  | u :: r => Ok (fold_left Qmin r u)
  end.

Definition max (a : list Q) : result Q :=
  match a with
  | [] => Err ValueError_zero_size_reduction
  | u :: r => Ok (fold_left Qmax r u)
  end.

(** [np.where(mask)] of a 1-D mask: the positions that hold. *)
Fixpoint where_from (k : nat) (mask : list bool) : list nat :=
  match mask with
  | [] => []
  | b :: r => if b then k :: where_from (S k) r else where_from (S k) r
  end.

Definition where_ (mask : list bool) : list nat := where_from 0 mask.

(** [a[idx]] with an integer index array. *)
Definition take (a : list Q) (idx : list nat) : result (list Q) :=
  traverse (fun k => match nth_error a k with
                     | Some v => Ok v
                     | None => Err IndexError
                     end) idx.

(** [np.broadcast_arrays(a, b)] of two 1-D arrays, zipped: equal
    lengths pair up, a length-1 array is repeated, anything else is a
    shape mismatch. *)
Definition broadcast (a b : list Q) : result (list (Q * Q)) :=
  if Nat.eqb (length a) (length b) then Ok (combine a b)
  else match a, b with
       | [u], _ => Ok (map (fun v => (u, v)) b)
       | _, [v] => Ok (map (fun u => (u, v)) a)
       | _, _ => Err ValueError_shape_mismatch
       end.

End np.

(* ================================================================== *)
(** ** [scipy.interpolate.griddata(..., method='nearest')] *)

Module scipy.

(** Squared Euclidean distance in (lon, lat); the nearest point is the
    same for the distance and for its square. *)
Definition dist2 (p q : Q * Q) : Q :=
  (fst p - fst q) * (fst p - fst q) + (snd p - snd q) * (snd p - snd q).

(** Position of a point of [pts] at minimal distance from [q], scanning
    from position [k] with the best so far at [best]. *)
Fixpoint argmin_from (q : Q * Q) (pts : list (Q * Q))
         (k best : nat) (bestd : Q) : nat :=
  match pts with
  | [] => best
  | p :: r =>
      if Qlt_bool (dist2 p q) bestd
      then argmin_from q r (S k) k (dist2 p q)
      else argmin_from q r (S k) best bestd
  end.

(** The k-d tree query: the position of a nearest point, or nothing
    for an empty tree (scipy answers with an infinite distance then). *)
Definition query (pts : list (Q * Q)) (q : Q * Q) : option nat :=
  match pts with
  | [] => None
  | p :: r => Some (argmin_from q r 1 0 (dist2 p q))
  end.

(** The answer of [NearestNDInterpolator] for one query point: the
    value at the position that the tree gives, and NaN where the tree
    gives none (the interpolator fills its result with NaN and writes
    the values only where the distance is finite). *)
Definition answer (pts : list (Q * Q)) (values : list Q) (q : Q * Q)
  : result float :=
  match query pts q with
  | None => Ok NaN
  | Some k => match nth_error values k with
              | Some v => Ok (Fin v)
              | None => Err IndexError
              end
  end.

(** [griddata((px, py), values, (qx, qy), method='nearest')].

    Both coordinate tuples go through numpy broadcasting ([xi] is
    documented as a tuple of arrays broadcastable to the same shape),
    the numbers of points and of values must agree, and each query
    point gets [values[i]] for the index [i] that the tree answers;
    with no points at all every query point gets NaN (scipy 1.12 and
    later; earlier releases raised an IndexError there).
    Exact ties are broken towards the lowest position here; scipy
    leaves that choice to its k-d tree, and no statement below depends
    on it. *)
Definition griddata_nearest (px py values qx qy : list Q)
  : result (list float) :=
  match np.broadcast px py with
  | Err e => Err e
  | Ok pts =>
      if negb (Nat.eqb (length pts) (length values))
      then Err ValueError_different_number
      else
        match np.broadcast qx qy with
        | Err e => Err e
        | Ok xi => traverse (answer pts values) xi
        end
  end.

End scipy.

(* ================================================================== *)
(** ** The dataset and the lookup object *)

(** The variables of the NetCDF file that the module reads: the 2-D
    coordinate variables [lon_z] and [lat_z], and the 3-D grids [ha]
    (amplitude) and [hp] (phase), indexed [constituent, lon, lat]. *)
Record Dataset : Type := {
  lon_z : list (list Q);
  lat_z : list (list Q);
  ha_var : list (list (list Q));
  hp_var : list (list (list Q))
}.

Definition quote : string := String (ascii_of_nat 34) EmptyString.
Definition newline : string := String (ascii_of_nat 10) EmptyString.

Definition TPXO_ENVIRONMENT_VARIABLE : string := "TPXO_NCFILE".
Definition TPXO_FILENAME : string := "h_tpxo9.v1.nc".

(** [s in t] for strings. *)
Fixpoint contains (s t : string) : bool :=
  if prefix s t then true
  else match t with
       | EmptyString => false
       | String _ r => contains s r
       end.

Module TPXO.

(** An instance: [self.path] and [self.dataset]. *)
Record t : Type := {
  path : option string;
  dataset : Dataset
}.

(** *** The state-and-error monad of a method call *)

Definition M (A : Type) : Type := t -> result A * t.

Definition ret {A} (a : A) : M A := fun self => (Ok a, self).

Definition bind {A B} (m : M A) (k : A -> M B) : M B :=
  fun self =>
    match m self with
    | (Ok a, self') => k a self'
    | (Err e, self') => (Err e, self')
    end.

(** A computation that does not touch the instance. *)
Definition lift {A} (r : result A) : M A := fun self => (r, self).

(** Reading an attribute of [self]. *)
Definition getattr {A} (f : t -> A) : M A := fun self => (Ok (f self), self).

Notation "v <- m ;; k" := (bind m (fun v => k))
  (at level 61, m at next level, right associativity).

(** *** Class constants *)

Definition CONSTITUENTS : list string :=
  ["M2"; "S2"; "N2"; "K2"; "K1"; "O1"; "P1"; "Q1"; "Mm"; "Mf";
   "M4"; "MN4"; "MS4"; "2N2"; "S1"].

(** [l.index(name)] *)
Fixpoint index_from (k : nat) (l : list string) (name : string)
  : result nat :=
  match l with
  | [] => Err (ValueError_not_in_list name)
  | s :: r => if String.eqb s name then Ok k
              else index_from (S k) r name
  end.

Definition index (l : list string) (name : string) : result nat :=
  index_from 0 l name.

(** *** Properties *)

(** [a[:, 0]] of a 2-D array. *)
Definition column0 (a : list (list Q)) : result (list Q) :=
  traverse (fun row => match row with
                       | [] => Err IndexError
                       | v :: _ => Ok v
                       end) a.

(** [a[0, :]] of a 2-D array. *)
Definition row0 (a : list (list Q)) : result (list Q) :=
  match a with
  | [] => Err IndexError
  | row :: _ => Ok row
  end.

(** [a[k, :, :]] of a 3-D array. *)
Definition layer (a : list (list (list Q))) (k : nat)
  : result (list (list Q)) :=
  match nth_error a k with
  | Some s => Ok s
  | None => Err IndexError
  end.

Definition x : M (list Q) :=
  d <- getattr dataset ;; lift (column0 (lon_z d)).

Definition y : M (list Q) :=
  d <- getattr dataset ;; lift (row0 (lat_z d)).

Definition ha : M (list (list (list Q))) :=
  d <- getattr dataset ;; ret (ha_var d).

Definition hp : M (list (list (list Q))) :=
  d <- getattr dataset ;; ret (hp_var d).

(** *** The lookup *)

(** Modelled from the spec: [TidalDataset._assert_vertices] lives in
    [adcircpy/forcing/tides/dataset.py], which is not part of the
    sources at hand.  It rejects a point array that is not rectangular
    with two columns; here the points are a list of pairs, which has
    that shape by its type, so the check always passes. *)
Definition _assert_vertices (vertices : list (Q * Q)) : M unit := ret tt.

(** The local [_x]: the query longitudes that are negative, shifted by
    360. *)
Definition _x (vertices : list (Q * Q)) : list Q :=
  map (fun v => v + 360) (filter (fun v => Qlt_bool v 0) (map fst vertices)).

(** The local [_y]: the query latitudes. *)
Definition _y (vertices : list (Q * Q)) : list Q := map snd vertices.

(** The mask under [np.where]: the flat grid points inside the
    bounding box of the query, buffered by two difference units. *)
Definition in_bbox (min_x max_x min_y max_y : Q) (dx dy : float)
           (p : Q * Q) : bool :=
  (fge (fst p) (fsub min_x (fdouble dx))
     && fle (fst p) (fadd max_x (fdouble dx)))
  && (fge (snd p) (fsub min_y (fdouble dy))
        && fle (snd p) (fadd max_y (fdouble dy))).

(** The local [_idx]. *)
Definition _idx (xs ys : list Q) (min_x max_x min_y max_y : Q)
           (dx dy : float) : list nat :=
  np.where_ (map (in_bbox min_x max_x min_y max_y dx dy) (combine xs ys)).

Definition _get_interpolation (tpxo_array : list (list (list Q)))
           (constituent : string) (vertices : list (Q * Q))
  : M (list float) :=
  _ <- _assert_vertices vertices ;;
  constituent <- lift (index CONSTITUENTS constituent) ;;
  slice <- lift (layer tpxo_array constituent) ;;
  let array := np.flatten slice in
  let qx := _x vertices in
  let qy := _y vertices in
  self_x <- x ;;
  self_y <- y ;;
  let xs := np.flatten (fst (np.meshgrid_ij self_x self_y)) in
  let ys := np.flatten (snd (np.meshgrid_ij self_x self_y)) in
  self_x <- x ;;
  let dx := np.mean (np.diff self_x) in
  self_y <- y ;;
  let dy := np.mean (np.diff self_y) in
  min_x <- lift (np.min qx) ;;
  max_x <- lift (np.max qx) ;;
  min_y <- lift (np.min qy) ;;
  max_y <- lift (np.max qy) ;;
  let idx := _idx xs ys min_x max_x min_y max_y dx dy in
  px <- lift (np.take xs idx) ;;
  py <- lift (np.take ys idx) ;;
  values <- lift (np.take array idx) ;;
  lift (scipy.griddata_nearest px py values qx qy).

Definition get_amplitude (constituent : string) (vertices : list (Q * Q))
  : M (list float) :=
  _ <- _assert_vertices vertices ;;
  a <- ha ;;
  _get_interpolation a constituent vertices.

Definition get_phase (constituent : string) (vertices : list (Q * Q))
  : M (list float) :=
  _ <- _assert_vertices vertices ;;
  a <- hp ;;
  _get_interpolation a constituent vertices.

(** *** Construction *)

(** [str(self.path)] inside the f-strings of the message. *)
Definition str_path (p : option string) : string :=
  match p with Some s => s | None => "None" end.

(** The message of the [FileNotFoundError] raised by [__init__]. *)
Definition not_found_message (self_path : option string) : string :=
  String.concat newline
    [ "No TPXO file found at " ++ quote ++ str_path self_path ++ quote
        ++ ".";
      "New users will need to register and request a copy of "
        ++ "the TPXO9 NetCDF file (specifically `" ++ TPXO_FILENAME
        ++ "`) " ++ "from the authors at https://www.tpxo.net.";
      "Once you obtain `h_tpxo9.v1.nc`, you can follow one of the following options: ";
      "1) copy or symlink the file to " ++ quote ++ str_path self_path
        ++ quote;
      "2) set the environment variable `" ++ TPXO_ENVIRONMENT_VARIABLE
        ++ "` to point to the file" ]%string.

Section Construction.

(** What [__init__] takes from its surroundings:
    - [DEFAULT_PATH], the per-user data location
      [appdirs.user_data_dir('tpxo') / TPXO_FILENAME];
    - [getenv], the value of the environment variable
      [TPXO_NCFILE], if set;
    - [TidalDataset_init], the value that the base class
      ([dataset.py], not among the sources at hand) leaves in
      [self.path] when given a file name;
    - [netCDF4_Dataset], opening a file as a dataset. *)
Variable DEFAULT_PATH : string.
Variable getenv : option string.
Variable TidalDataset_init : string -> option string.
Variable netCDF4_Dataset : string -> result Dataset.

Definition __init__ (tpxo_dataset_filename : option string)
  : result t :=
  let tpxo_dataset_filename :=
    match tpxo_dataset_filename with
    | Some f => f
    | None =>
        match getenv with
        | Some tpxo_environment_variable => tpxo_environment_variable
        | None => DEFAULT_PATH
        end
    end in
  let self_path := TidalDataset_init tpxo_dataset_filename in
  match self_path with
  | Some p =>
      match netCDF4_Dataset p with
      | Ok d => Ok {| path := self_path; dataset := d |}
      | Err e => Err e
      end
  | None => Err (FileNotFoundError (not_found_message self_path))
  end.

End Construction.

End TPXO.

(* ================================================================== *)
(** ** The grid of a dataset, as the specification speaks of it *)

(** The longitude and latitude axes: what the properties [x] and [y]
    read from a well-formed dataset. *)
Definition lon_axis (d : Dataset) : list Q := map (hd 0) (lon_z d).
Definition lat_axis (d : Dataset) : list Q := hd [] (lat_z d).

(** The grid points, longitude slowest and latitude fastest. *)
Definition grid_points (d : Dataset) : list (Q * Q) :=
  list_prod (lon_axis d) (lat_axis d).

(** The grid spacings: means of the successive differences of the axes. *)
Definition grid_dx (d : Dataset) : float := np.mean (np.diff (lon_axis d)).
Definition grid_dy (d : Dataset) : float := np.mean (np.diff (lat_axis d)).

(** Least and greatest element of a non-empty array. *)
Definition qmin (l : list Q) : Q := fold_left Qmin (tl l) (hd 0 l).
Definition qmax (l : list Q) : Q := fold_left Qmax (tl l) (hd 0 l).

(** The padded bounding box of a query. *)
Definition padded_bbox (d : Dataset) (vertices : list (Q * Q))
  : Q * Q -> bool :=
  TPXO.in_bbox (qmin (TPXO._x vertices)) (qmax (TPXO._x vertices))
               (qmin (TPXO._y vertices)) (qmax (TPXO._y vertices))
               (grid_dx d) (grid_dy d).

(** The candidate grid points of a query, and the candidates together
    with their values in a 2-D slice. *)
Definition candidate_points (d : Dataset) (vertices : list (Q * Q))
  : list (Q * Q) :=
  filter (padded_bbox d vertices) (grid_points d).

Definition candidates (d : Dataset) (vertices : list (Q * Q))
           (slice : list (list Q)) : list ((Q * Q) * Q) :=
  filter (fun pv => padded_bbox d vertices (fst pv))
         (combine (grid_points d) (np.flatten slice)).

(** The slice of a 3-D grid that belongs to a constituent name. *)
Definition constituent_slice (a : list (list (list Q))) (name : string)
  : list (list Q) :=
  match TPXO.index TPXO.CONSTITUENTS name with
  | Ok k => nth k a []
  | Err _ => []
  end.

(** A 2-D array of shape [(L, M)]. *)
Definition rect (L M : nat) (a : list (list Q)) : bool :=
  Nat.eqb (length a) L && forallb (fun r => Nat.eqb (length r) M) a.

(** A dataset as the TPXO file has it: [lon_z] and [lat_z] of one shape
    [(L, M)] with [L, M >= 1], and 15 layers of that shape in [ha] and in
    [hp]. *)
Definition wf_dataset (d : Dataset) : bool :=
  let L := length (lon_z d) in
  let M := length (lat_axis d) in
  Nat.leb 1 L && Nat.leb 1 M
  && rect L M (lon_z d) && rect L M (lat_z d)
  && Nat.eqb (length (ha_var d)) 15 && forallb (rect L M) (ha_var d)
  && Nat.eqb (length (hp_var d)) 15 && forallb (rect L M) (hp_var d).

(** What [wf_dataset] says, fact by fact. *)
Record wf_facts (d : Dataset) : Prop := {
  wf_L : (1 <= length (lon_axis d))%nat;
  wf_M : (1 <= length (lat_axis d))%nat;
  wf_x : TPXO.column0 (lon_z d) = Ok (lon_axis d);
  wf_y : TPXO.row0 (lat_z d) = Ok (lat_axis d);
  wf_ha_len : length (ha_var d) = 15%nat;
  wf_hp_len : length (hp_var d) = 15%nat;
  wf_ha : forall s, In s (ha_var d) ->
                    rect (length (lon_axis d)) (length (lat_axis d)) s = true;
  wf_hp : forall s, In s (hp_var d) ->
                    rect (length (lon_axis d)) (length (lat_axis d)) s = true
}.

(** [out] holds one nearest-neighbour value per query point, in the order
    of the points: entry [i] is the value, in [slice], of a candidate
    grid point that is at least as close to the normalised point [i] as
    every other candidate. *)
Definition one_nearest_value_per_point (d : Dataset)
           (vertices : list (Q * Q)) (slice : list (list Q))
           (out : list float) : Prop :=
  length out = length vertices
  /\ forall (i : nat) (v : Q * Q),
      nth_error vertices i = Some v ->
      exists (p : Q * Q) (w : Q),
        nth_error out i = Some (Fin w)
        /\ In (p, w) (candidates d vertices slice)
        /\ forall p', In p' (candidate_points d vertices) ->
                      scipy.dist2 p (fst v + 360, snd v)
                      <= scipy.dist2 p' (fst v + 360, snd v).

(** Every query longitude is negative. *)
Definition all_negative (vertices : list (Q * Q)) : bool :=
  forallb (fun v => Qlt_bool (fst v) 0) vertices.

(** The normalisation of a query longitude that the specification
    describes: negative longitudes are shifted by 360, the others are
    kept. *)
Definition normalize_longitude (v : Q) : Q :=
  if Qlt_bool v 0 then v + 360 else v.

(** A method call that leaves the instance as it found it. *)
Definition read_only {A} (m : TPXO.M A) : Prop :=
  forall self, snd (m self) = self.

(** [out] holds, for each of the points [xi] in order, the value in
    [slice] of a candidate grid point of the query that is at least as
    close to that point as every other candidate. *)
Definition nearest_values_at (d : Dataset) (vertices : list (Q * Q))
           (slice : list (list Q)) (xi : list (Q * Q))
           (out : list float) : Prop :=
  length out = length xi
  /\ forall (i : nat) (q : Q * Q),
      nth_error xi i = Some q ->
      exists (p : Q * Q) (w : Q),
        nth_error out i = Some (Fin w)
        /\ In (p, w) (candidates d vertices slice)
        /\ forall p', In p' (candidate_points d vertices) ->
                      scipy.dist2 p q <= scipy.dist2 p' q.

(** [a[i][j]] of a 2-D array and [a[k][i][j]] of a 3-D array, where
    the position exists. *)
Definition getitem2 (a : list (list Q)) (i j : nat) : option Q :=
  match nth_error a i with
  | Some row => nth_error row j
  | None => None
  end.

Definition getitem3 (a : list (list (list Q))) (k i j : nat) : option Q :=
  match nth_error a k with
  | Some s => getitem2 s i j
  | None => None
  end.

(** The padded bounding box as the specification describes it: around
    the normalised longitudes of all query points, negative longitudes
    shifted by 360 and the others kept. *)
Definition specified_bbox (d : Dataset) (vertices : list (Q * Q))
  : Q * Q -> bool :=
  let qx := map (fun v => normalize_longitude (fst v)) vertices in
  TPXO.in_bbox (qmin qx) (qmax qx)
               (qmin (TPXO._y vertices)) (qmax (TPXO._y vertices))
               (grid_dx d) (grid_dy d).


(** Modelled from the spec: [TidalDataset.__init__] lives in
    [adcircpy/forcing/tides/dataset.py], which is not part of the
    sources at hand.  The spec describes what resolves the file name as
    a collaborator that supplies a path string: the base class keeps
    the name that [TPXO.__init__] hands to it as [self.path]. *)
Definition TidalDataset_keeps_name (filename : string) : option string :=
  Some filename.

(** [netCDF4.Dataset(path)] over a file system that maps the paths of
    the readable NetCDF files to their contents.  For a path without a
    file the library raises a FileNotFoundError that carries the text of
    the operating system error and the path. *)
Definition no_such_file_message (p : string) : string :=
  ("[Errno 2] No such file or directory: '" ++ p ++ "'")%string.

Definition netCDF4_open (fs : string -> option Dataset) (p : string)
  : result Dataset :=
  match fs p with
  | Some d => Ok d
  | None => Err (FileNotFoundError (no_such_file_message p))
  end.

(** The arrays of a lookup line up.  With axis lengths [(L, M)], the
    flattened coordinate arrays [xs], [ys] and the flattened slices of
    the amplitude and phase grids at the catalog position [k] of the
    constituent have [L * M] entries each; flat position [i * M + j]
    holds [lon_z[i][0]], [lat_z[0][j]] and the grid values at
    [(k, i, j)]; and the lookup is [griddata] on the entries of these
    four arrays at the positions [_idx]. *)
Definition lookup_arrays_aligned (self : TPXO.t) (constituent : string)
           (vertices : list (Q * Q)) (k : nat) : Prop :=
  let d := TPXO.dataset self in
  let L := length (lon_axis d) in
  let M := length (lat_axis d) in
  let qx := TPXO._x vertices in
  let qy := TPXO._y vertices in
  let xs := np.flatten (fst (np.meshgrid_ij (lon_axis d) (lat_axis d))) in
  let ys := np.flatten (snd (np.meshgrid_ij (lon_axis d) (lat_axis d))) in
  let amplitude := np.flatten (constituent_slice (ha_var d) constituent) in
  let phase := np.flatten (constituent_slice (hp_var d) constituent) in
  let idx := TPXO._idx xs ys (qmin qx) (qmax qx) (qmin qy) (qmax qy)
                       (grid_dx d) (grid_dy d) in
  (length xs = (L * M)%nat /\ length ys = (L * M)%nat
   /\ length amplitude = (L * M)%nat /\ length phase = (L * M)%nat)
  /\ (forall i j, (i < L)%nat -> (j < M)%nat ->
       exists u v wa wp,
         getitem2 (lon_z d) i 0 = Some u
         /\ getitem2 (lat_z d) 0 j = Some v
         /\ getitem3 (ha_var d) k i j = Some wa
         /\ getitem3 (hp_var d) k i j = Some wp
         /\ nth_error xs (i * M + j) = Some u
         /\ nth_error ys (i * M + j) = Some v
         /\ nth_error amplitude (i * M + j) = Some wa
         /\ nth_error phase (i * M + j) = Some wp)
  /\ (exists px py va vp,
         np.take xs idx = Ok px
         /\ np.take ys idx = Ok py
         /\ np.take amplitude idx = Ok va
         /\ np.take phase idx = Ok vp
         /\ TPXO.get_amplitude constituent vertices self
            = (scipy.griddata_nearest px py va qx qy, self)
         /\ TPXO.get_phase constituent vertices self
            = (scipy.griddata_nearest px py vp qx qy, self)).

(** An axis whose entries strictly increase. *)
Fixpoint increasing (a : list Q) : bool :=
  match a with
  | [] => true
  | u :: r => match r with
              | [] => true
              | v :: _ => Qlt_bool u v && increasing r
              end
  end.

(** The file name that [__init__] settles on: the argument if there is
    one, else the environment variable if it is set, else the default
    path. *)
Definition resolved_filename (DEFAULT_PATH : string)
           (getenv : option string) (argument : option string) : string :=
  match argument, getenv with
  | Some f, _ => f
  | None, Some v => v
  | None, None => DEFAULT_PATH
  end.

(* ------------------------------------------------------------------ *)
(** *** A small dataset for the examples *)

(** A regular grid with the given axes; the amplitude of constituent [c]
    at grid node [(i, j)] is [100 c + 10 i + j], the phase is its
    opposite. *)
Definition example_grid (lon lat : list Q) : Dataset :=
  let value (c i j : nat) : Q := inject_Z (Z.of_nat (100 * c + 10 * i + j)) in
  let grid (f : nat -> nat -> nat -> Q) :=
    map (fun c => map (fun i => map (f c i) (seq 0 (length lat)))
                      (seq 0 (length lon)))
        (seq 0 15) in
  {| lon_z := map (fun u => map (fun _ => u) lat) lon;
     lat_z := map (fun _ => lat) lon;
     ha_var := grid value;
     hp_var := grid (fun c i j => - value c i j) |}.

Definition example_dataset : Dataset :=
  example_grid [188; 189; 190; 191; 192] [0; 1; 2].

Definition example_tpxo : TPXO.t :=
  {| TPXO.path := Some "h_tpxo9.v1.nc"; TPXO.dataset := example_dataset |}.

(* ================================================================== *)
(** * Properties *)

(** ** The instance is only read *)

Section ReadOnly.

Import TPXO.

Lemma read_only_ret {A} (a : A) : read_only (ret a).
Proof. intros self; reflexivity. Qed.

Lemma read_only_lift {A} (r : result A) : read_only (lift r).
Proof. intros self; reflexivity. Qed.

Lemma read_only_getattr {A} (f : t -> A) : read_only (getattr f).
Proof. intros self; reflexivity. Qed.

Lemma read_only_bind {A B} (m : M A) (k : A -> M B) :
  read_only m -> (forall a, read_only (k a)) -> read_only (bind m k).
Proof.
  intros Hm Hk self. unfold bind.
  specialize (Hm self). destruct (m self) as [[a|e] self']; simpl in *; subst.
  - apply Hk.
  - reflexivity.
Qed.

Create HintDb tpxo_frame.
Hint Resolve read_only_ret read_only_lift read_only_getattr : tpxo_frame.

Ltac frame :=
  repeat (apply read_only_bind; [ | intros ? ]); auto with tpxo_frame.

Lemma read_only_x : read_only x.
Proof. unfold x; frame. Qed.

Lemma read_only_y : read_only y.
Proof. unfold y; frame. Qed.

Lemma read_only_ha : read_only ha.
Proof. unfold ha; frame. Qed.

Lemma read_only_hp : read_only hp.
Proof. unfold hp; frame. Qed.

Hint Resolve read_only_x read_only_y read_only_ha read_only_hp : tpxo_frame.

Lemma read_only_get_interpolation a c vs :
  read_only (_get_interpolation a c vs).
Proof. unfold _get_interpolation, _assert_vertices; frame. Qed.

Lemma read_only_get_amplitude c vs : read_only (get_amplitude c vs).
Proof.
  unfold get_amplitude, _assert_vertices; frame.
Qed.

Lemma read_only_get_phase c vs : read_only (get_phase c vs).
Proof.
  unfold get_phase, _assert_vertices; frame.
Qed.

End ReadOnly.

(** C9. A call of [get_amplitude] or of [get_phase] leaves the lookup
    object as it was, whether it returns or raises: the path and the
    dataset with its axes and grids are the same after the call.  (The
    constituent catalog is a class constant, [TPXO.CONSTITUENTS], which
    no method can write.) *)
Theorem lookup_leaves_instance_unchanged :
  forall (self : TPXO.t) (constituent : string) (vertices : list (Q * Q)),
    snd (TPXO.get_amplitude constituent vertices self) = self
    /\ snd (TPXO.get_phase constituent vertices self) = self.
Proof.
  intros self c vs; split.
  - apply read_only_get_amplitude.
  - apply read_only_get_phase.
Qed.

(** ** Unknown constituents *)

Lemma index_from_not_in (l : list string) (name : string) (k : nat) :
  ~ In name l ->
  TPXO.index_from k l name = Err (ValueError_not_in_list name).
Proof.
  revert k; induction l as [|s r IH]; intros k Hn; simpl.
  - reflexivity.
  - destruct (String.eqb_spec s name) as [->|Hne].
    + exfalso; apply Hn; left; reflexivity.
    + apply IH. intros Hin; apply Hn; right; exact Hin.
Qed.

Lemma index_from_in (l : list string) (name : string) (k : nat) :
  In name l ->
  exists i, TPXO.index_from k l name = Ok (k + i)%nat /\ (i < length l)%nat.
Proof.
  revert k; induction l as [|s r IH]; intros k Hin; simpl.
  - destruct Hin.
  - destruct (String.eqb_spec s name) as [->|Hne].
    + exists 0%nat; split; [f_equal; lia | lia].
    + destruct Hin as [->|Hin]; [congruence|].
      destruct (IH (S k) Hin) as [i [E Hi]].
      exists (S i); split; [rewrite E; f_equal; lia | lia].
Qed.




(** ** Lists, masks and index arrays *)

Section Traverse.

Context {A B : Type}.
Variable f : A -> result B.

Lemma traverse_map_ok (g : A -> B) (l : list A) :
  (forall a, In a l -> f a = Ok (g a)) -> traverse f l = Ok (map g l).
Proof.
  induction l as [|a r IH]; intros H; simpl.
  - reflexivity.
  - rewrite (H a (or_introl eq_refl)), IH; [reflexivity|].
    intros b Hb; apply H; right; exact Hb.
Qed.

End Traverse.

Lemma where_from_take {P : Type} (g : P -> Q) (m : P -> bool)
      (pre : list Q) (l : list P) :
  np.take (pre ++ map g l) (np.where_from (length pre) (map m l))
  = Ok (map g (filter m l)).
Proof.
  unfold np.take. revert pre; induction l as [|p r IH]; intros pre; simpl.
  - reflexivity.
  - replace (pre ++ g p :: map g r) with ((pre ++ [g p]) ++ map g r)
      by (rewrite <- app_assoc; reflexivity).
    assert (HS : S (length pre) = length (pre ++ [g p]))
      by (rewrite length_app; simpl; lia).
    rewrite HS.
    destruct (m p); simpl.
    + rewrite IH.
      rewrite nth_error_app1 by (rewrite <- HS; lia).
      rewrite nth_error_app2 by lia.
      rewrite Nat.sub_diag; reflexivity.
    + apply IH.
Qed.

(** Indexing with the positions of a mask keeps, in order, the entries
    whose mask holds. *)
Lemma take_where {P : Type} (g : P -> Q) (m : P -> bool) (l : list P) :
  np.take (map g l) (np.where_ (map m l)) = Ok (map g (filter m l)).
Proof. exact (where_from_take g m [] l). Qed.

(** ** The flattened grid *)

Lemma combine_app_same {A B} (l1 l2 : list A) (m1 m2 : list B) :
  length l1 = length m1 ->
  combine (l1 ++ l2) (m1 ++ m2) = combine l1 m1 ++ combine l2 m2.
Proof.
  revert m1; induction l1 as [|a r IH]; intros [|b m1] H; simpl in *;
    try discriminate; [reflexivity|].
  f_equal; apply IH; lia.
Qed.

Lemma combine_const_left {A B} (a : A) (l : list B) :
  combine (map (fun _ => a) l) l = map (fun b => (a, b)) l.
Proof. induction l as [|b r IH]; simpl; [reflexivity | f_equal; exact IH]. Qed.

(** The two flattened mesh arrays, read side by side, list the grid
    points with the first axis slowest. *)
Lemma meshgrid_flatten_combine (xs ys : list Q) :
  combine (np.flatten (fst (np.meshgrid_ij xs ys)))
          (np.flatten (snd (np.meshgrid_ij xs ys)))
  = list_prod xs ys.
Proof.
  unfold np.flatten, np.meshgrid_ij; simpl.
  induction xs as [|u r IH]; simpl; [reflexivity|].
  rewrite combine_app_same by (rewrite length_map; reflexivity).
  rewrite combine_const_left, IH; reflexivity.
Qed.

Lemma meshgrid_flatten_length (xs ys : list Q) :
  length (np.flatten (fst (np.meshgrid_ij xs ys)))
  = length (np.flatten (snd (np.meshgrid_ij xs ys))).
Proof.
  unfold np.flatten, np.meshgrid_ij; simpl.
  induction xs as [|u r IH]; simpl; [reflexivity|].
  rewrite !length_app, length_map, IH; reflexivity.
Qed.

Lemma map_fst_combine_same {A B} (l : list A) (m : list B) :
  length l = length m -> map fst (combine l m) = l.
Proof.
  revert m; induction l as [|a r IH]; intros [|b m] H; simpl in *;
    try discriminate; [reflexivity|].
  f_equal; apply IH; lia.
Qed.

Lemma map_snd_combine_same {A B} (l : list A) (m : list B) :
  length l = length m -> map snd (combine l m) = m.
Proof.
  revert m; induction l as [|a r IH]; intros [|b m] H; simpl in *;
    try discriminate; [reflexivity|].
  f_equal; apply IH; lia.
Qed.

Lemma meshgrid_flatten_fst (xs ys : list Q) :
  np.flatten (fst (np.meshgrid_ij xs ys)) = map fst (list_prod xs ys).
Proof.
  rewrite <- meshgrid_flatten_combine.
  symmetry; apply map_fst_combine_same, meshgrid_flatten_length.
Qed.

Lemma meshgrid_flatten_snd (xs ys : list Q) :
  np.flatten (snd (np.meshgrid_ij xs ys)) = map snd (list_prod xs ys).
Proof.
  rewrite <- meshgrid_flatten_combine.
  symmetry; apply map_snd_combine_same, meshgrid_flatten_length.
Qed.

(** Position [i * M + j] of the product of two lists. *)
Lemma list_prod_nth_error {A B} (l : list A) (m : list B) (i j : nat) a b :
  nth_error l i = Some a -> nth_error m j = Some b ->
  nth_error (list_prod l m) (i * length m + j) = Some (a, b).
Proof.
  revert i; induction l as [|a0 r IH]; intros i Hi Hj.
  - destruct i; discriminate.
  - assert (Hlt : (j < length m)%nat)
      by (apply nth_error_Some; congruence).
    destruct i as [|i]; simpl in *.
    + inversion Hi; subst.
      rewrite nth_error_app1 by (rewrite length_map; exact Hlt).
      rewrite nth_error_map, Hj; reflexivity.
    + rewrite nth_error_app2 by (rewrite length_map; lia).
      rewrite length_map.
      replace (length m + i * length m + j - length m)%nat
        with (i * length m + j)%nat by lia.
      apply IH; assumption.
Qed.

(** Position [i * M + j] of a flattened array of shape [(L, M)]. *)
Lemma flatten_nth_error (M : nat) (a : list (list Q)) (i j : nat) row v :
  forallb (fun r => Nat.eqb (length r) M) a = true ->
  nth_error a i = Some row -> nth_error row j = Some v ->
  nth_error (np.flatten a) (i * M + j) = Some v.
Proof.
  unfold np.flatten.
  revert i; induction a as [|r0 a IH]; intros i Hr Hi Hj.
  - destruct i; discriminate.
  - simpl in Hr; apply andb_true_iff in Hr; destruct Hr as [H0 Hr].
    apply Nat.eqb_eq in H0.
    destruct i as [|i]; simpl in *.
    + inversion Hi; subst.
      rewrite nth_error_app1 by (apply nth_error_Some; congruence).
      exact Hj.
    + assert (Hlt : (j < M)%nat).
      { assert (Hrow : length row = M).
        { apply nth_error_In in Hi.
          rewrite forallb_forall in Hr. apply Nat.eqb_eq, Hr, Hi. }
        rewrite <- Hrow; apply nth_error_Some; congruence. }
      rewrite nth_error_app2 by lia.
      replace (M + i * M + j - length r0)%nat with (i * M + j)%nat by lia.
      apply IH; assumption.
Qed.

Lemma flatten_length (L M : nat) (a : list (list Q)) :
  rect L M a = true -> length (np.flatten a) = (L * M)%nat.
Proof.
  unfold rect, np.flatten; intros H.
  apply andb_true_iff in H; destruct H as [HL HM].
  apply Nat.eqb_eq in HL; subst L.
  induction a as [|r a IH]; simpl in *; [reflexivity|].
  apply andb_true_iff in HM; destruct HM as [H0 HM].
  apply Nat.eqb_eq in H0.
  rewrite length_app, IH by exact HM. lia.
Qed.

(** ** Reading a well-formed dataset *)

Lemma rect_rows (L M : nat) (a : list (list Q)) (r : list Q) :
  rect L M a = true -> In r a -> length r = M.
Proof.
  unfold rect; intros H Hin.
  apply andb_true_iff in H; destruct H as [_ H].
  rewrite forallb_forall in H. apply Nat.eqb_eq, H, Hin.
Qed.

Lemma rect_length (L M : nat) (a : list (list Q)) :
  rect L M a = true -> length a = L.
Proof.
  unfold rect; intros H.
  apply andb_true_iff in H; destruct H as [H _]. apply Nat.eqb_eq, H.
Qed.

Lemma column0_rect (L M : nat) (a : list (list Q)) :
  (1 <= M)%nat -> rect L M a = true ->
  TPXO.column0 a = Ok (map (hd 0) a).
Proof.
  intros HM Hr. unfold TPXO.column0.
  apply traverse_map_ok. intros r Hin.
  pose proof (rect_rows L M a r Hr Hin) as Hl.
  destruct r; simpl in *; [lia | reflexivity].
Qed.

Lemma row0_nonempty (a : list (list Q)) :
  (1 <= length a)%nat -> TPXO.row0 a = Ok (hd [] a).
Proof. destruct a; simpl; [lia | reflexivity]. Qed.

Lemma wf_dataset_facts (d : Dataset) : wf_dataset d = true -> wf_facts d.
Proof.
  unfold wf_dataset; intros H.
  repeat (apply andb_true_iff in H; destruct H as [H ?]).
  apply Nat.leb_le in H.
  repeat match goal with
         | E : Nat.leb _ _ = true |- _ => apply Nat.leb_le in E
         | E : Nat.eqb _ _ = true |- _ => apply Nat.eqb_eq in E
         end.
  assert (HL : length (lon_axis d) = length (lon_z d))
    by (unfold lon_axis; apply length_map).
  constructor; try assumption.
  - lia.
  - eapply column0_rect; eassumption.
  - apply row0_nonempty.
    match goal with
    | E : rect _ _ (lat_z d) = true |- _ => rewrite (rect_length _ _ _ E)
    end; assumption.
  - rewrite HL; intros s Hs.
    match goal with
    | E : forallb _ (ha_var d) = true |- _ =>
        rewrite forallb_forall in E; apply E, Hs
    end.
  - rewrite HL; intros s Hs.
    match goal with
    | E : forallb _ (hp_var d) = true |- _ =>
        rewrite forallb_forall in E; apply E, Hs
    end.
Qed.

(** ** Minimum, maximum and the nearest point *)

Lemma Qmin_cases (a b : Q) : Qmin a b = a \/ Qmin a b = b.
Proof.
  unfold Qmin, GenericMinMax.gmin. destruct (a ?= b); auto.
Qed.

Lemma Qmax_cases (a b : Q) : Qmax a b = a \/ Qmax a b = b.
Proof.
  unfold Qmax, GenericMinMax.gmax. destruct (a ?= b); auto.
Qed.

Lemma fold_min_spec (r : list Q) (u : Q) :
  let m := fold_left Qmin r u in
  (m = u \/ In m r) /\ m <= u /\ forall q, In q r -> m <= q.
Proof.
  revert u; induction r as [|a r IH]; intros u; simpl.
  - split; [left; reflexivity|]. split; [apply Qle_refl | intros q []].
  - destruct (IH (Qmin u a)) as [Hin [Hle Hall]].
    split; [|split].
    + destruct Hin as [E|Hin]; [|right; right; exact Hin].
      destruct (Qmin_cases u a) as [E'|E'];
        [left | right; left; symmetry]; (etransitivity; [exact E | exact E']).
    + eapply Qle_trans; [exact Hle | apply Q.le_min_l].
    + intros q [<-|Hq]; [|apply Hall, Hq].
      eapply Qle_trans; [exact Hle | apply Q.le_min_r].
Qed.

Lemma fold_max_spec (r : list Q) (u : Q) :
  let m := fold_left Qmax r u in
  (m = u \/ In m r) /\ u <= m /\ forall q, In q r -> q <= m.
Proof.
  revert u; induction r as [|a r IH]; intros u; simpl.
  - split; [left; reflexivity|]. split; [apply Qle_refl | intros q []].
  - destruct (IH (Qmax u a)) as [Hin [Hle Hall]].
    split; [|split].
    + destruct Hin as [E|Hin]; [|right; right; exact Hin].
      destruct (Qmax_cases u a) as [E'|E'];
        [left | right; left; symmetry]; (etransitivity; [exact E | exact E']).
    + eapply Qle_trans; [apply Q.le_max_l | exact Hle].
    + intros q [<-|Hq]; [|apply Hall, Hq].
      eapply Qle_trans; [apply Q.le_max_r | exact Hle].
Qed.

Lemma np_min_qmin (l : list Q) : l <> [] -> np.min l = Ok (qmin l).
Proof. destruct l; [congruence | reflexivity]. Qed.

Lemma np_max_qmax (l : list Q) : l <> [] -> np.max l = Ok (qmax l).
Proof. destruct l; [congruence | reflexivity]. Qed.

(** [qmin l] is an element of [l] and a lower bound of it. *)
Lemma qmin_spec (l : list Q) :
  l <> [] -> In (qmin l) l /\ forall q, In q l -> qmin l <= q.
Proof.
  destruct l as [|u r]; [congruence|]; intros _.
  unfold qmin; simpl.
  destruct (fold_min_spec r u) as [Hin [Hle Hall]]; simpl in *.
  split.
  - destruct Hin as [->|Hin]; auto.
  - intros q [<-|Hq]; auto.
Qed.

Lemma qmax_spec (l : list Q) :
  l <> [] -> In (qmax l) l /\ forall q, In q l -> q <= qmax l.
Proof.
  destruct l as [|u r]; [congruence|]; intros _.
  unfold qmax; simpl.
  destruct (fold_max_spec r u) as [Hin [Hle Hall]]; simpl in *.
  split.
  - destruct Hin as [->|Hin]; auto.
  - intros q [<-|Hq]; auto.
Qed.

Lemma Qlt_bool_true (a b : Q) : Qlt_bool a b = true -> a < b.
Proof.
  unfold Qlt_bool; intros H. apply negb_true_iff in H.
  apply Qnot_le_lt. intros Hle. apply Qle_bool_iff in Hle. congruence.
Qed.

Lemma Qlt_bool_false (a b : Q) : Qlt_bool a b = false -> b <= a.
Proof.
  unfold Qlt_bool; intros H. apply negb_false_iff in H.
  apply Qle_bool_iff; exact H.
Qed.

Lemma argmin_from_spec (q : Q * Q) (r pre : list (Q * Q))
      (best : nat) (p0 : Q * Q) :
  nth_error pre best = Some p0 ->
  (forall p', In p' pre -> scipy.dist2 p0 q <= scipy.dist2 p' q) ->
  exists p,
    nth_error (pre ++ r)
              (scipy.argmin_from q r (length pre) best (scipy.dist2 p0 q))
    = Some p
    /\ forall p', In p' (pre ++ r) -> scipy.dist2 p q <= scipy.dist2 p' q.
Proof.
  revert pre best p0; induction r as [|a r IH]; intros pre best p0 Hb Hall.
  - simpl. exists p0; rewrite app_nil_r; split; assumption.
  - simpl.
    assert (HS : S (length pre) = length (pre ++ [a]))
      by (rewrite length_app; simpl; lia).
    replace (pre ++ a :: r) with ((pre ++ [a]) ++ r)
      by (rewrite <- app_assoc; reflexivity).
    rewrite HS.
    destruct (Qlt_bool (scipy.dist2 a q) (scipy.dist2 p0 q)) eqn:E.
    + apply Qlt_bool_true in E.
      assert (Hn : nth_error (pre ++ [a]) (length pre) = Some a).
      { rewrite nth_error_app2 by lia. rewrite Nat.sub_diag; reflexivity. }
      pose proof (IH (pre ++ [a]) (length pre) a Hn) as IH'.
      apply IH'.
      intros p' Hp'. apply in_app_or in Hp'; destruct Hp' as [Hp'|[<-|[]]].
      * apply Qlt_le_weak. eapply Qlt_le_trans; [exact E | apply Hall, Hp'].
      * apply Qle_refl.
    + apply Qlt_bool_false in E.
      assert (Hn : nth_error (pre ++ [a]) best = Some p0).
      { rewrite nth_error_app1; [exact Hb|].
        apply nth_error_Some; congruence. }
      apply (IH (pre ++ [a]) best p0 Hn).
      intros p' Hp'. apply in_app_or in Hp'; destruct Hp' as [Hp'|[<-|[]]].
      * apply Hall, Hp'.
      * exact E.
Qed.

(** The query of a non-empty tree answers with the position of a point
    that is at least as close to the query point as every other one. *)
Lemma query_spec (pts : list (Q * Q)) (q : Q * Q) :
  pts <> [] ->
  exists k p,
    scipy.query pts q = Some k
    /\ nth_error pts k = Some p
    /\ forall p', In p' pts -> scipy.dist2 p q <= scipy.dist2 p' q.
Proof.
  destruct pts as [|p0 r]; [congruence|]; intros _.
  unfold scipy.query.
  destruct (argmin_from_spec q r [p0] 0 p0 eq_refl) as [p [Hp Hmin]].
  - intros p' [<-|[]]; apply Qle_refl.
  - eexists; exists p. split; [reflexivity|]. split; [exact Hp | exact Hmin].
Qed.

(** On candidates with their values, a non-empty tree answers every
    query point with the value of a candidate nearest to it. *)
Lemma answer_nearest (cv : list ((Q * Q) * Q)) (q : Q * Q) :
  map fst cv <> [] ->
  exists p w,
    scipy.answer (map fst cv) (map snd cv) q = Ok (Fin w)
    /\ In (p, w) cv
    /\ forall p', In p' (map fst cv) -> scipy.dist2 p q <= scipy.dist2 p' q.
Proof.
  intros Hne. destruct (query_spec (map fst cv) q Hne) as [k [p [Hk [Hp Hmin]]]].
  rewrite nth_error_map in Hp.
  destruct (nth_error cv k) as [[p1 w]|] eqn:E; [|discriminate].
  simpl in Hp; inversion Hp; subst p1.
  exists p, w. split; [|split; [apply nth_error_In in E; exact E | exact Hmin]].
  unfold scipy.answer. rewrite Hk, nth_error_map, E. reflexivity.
Qed.

(** An empty tree answers every query point with NaN. *)
Lemma answer_empty (values : list Q) (q : Q * Q) :
  scipy.answer [] values q = Ok NaN.
Proof. reflexivity. Qed.

Lemma traverse_pointwise {A B} (f : A -> result B) (P : A -> B -> Prop)
      (l : list A) :
  (forall x, exists b, f x = Ok b /\ P x b) ->
  exists bs,
    traverse f l = Ok bs
    /\ length bs = length l
    /\ forall i x, nth_error l i = Some x ->
                   exists b, nth_error bs i = Some b /\ P x b.
Proof.
  intros H. induction l as [|x r IH].
  - exists []. split; [reflexivity|]. split; [reflexivity|].
    intros i x Hi; destruct i; discriminate.
  - destruct (H x) as [b [Eb Pb]]. destruct IH as [bs [Et [Hl Hn]]].
    exists (b :: bs). simpl. rewrite Eb, Et.
    split; [reflexivity|]. split; [f_equal; exact Hl|].
    intros [|i] y Hi; simpl in Hi.
    + inversion Hi; subst. exists b; split; [reflexivity | exact Pb].
    + apply (Hn i y Hi).
Qed.

(** ** What the lookup hands to [griddata] *)

Lemma filter_map_swap {A B} (f : A -> B) (m : B -> bool) (l : list A) :
  filter m (map f l) = map f (filter (fun a => m (f a)) l).
Proof.
  induction l as [|a r IH]; simpl; [reflexivity|].
  destruct (m (f a)); simpl; rewrite IH; reflexivity.
Qed.

Lemma x_not_nil_y_not_nil (vs : list (Q * Q)) :
  TPXO._x vs <> [] -> TPXO._y vs <> [].
Proof. destruct vs; simpl; [intros H; exact H | discriminate]. Qed.

(** The candidate points are the first components of the candidates. *)
Lemma candidate_points_candidates d vs slice :
  length (np.flatten slice) = length (grid_points d) ->
  candidate_points d vs = map fst (candidates d vs slice).
Proof.
  intros Hlen. unfold candidate_points, candidates.
  rewrite <- filter_map_swap, map_fst_combine_same by (symmetry; exact Hlen).
  reflexivity.
Qed.

Ltac run_with H := rewrite H; cbv beta iota.

(** On a well-formed dataset, for a constituent of the catalog and a
    query with at least one negative longitude, the lookup is one call
    of [griddata]: on the candidate points, their values in the slice,
    and the arrays [_x] and [_y]. *)
Lemma get_interpolation_run (self : TPXO.t) (a : list (list (list Q)))
      (c : string) (vs : list (Q * Q)) (k : nat) (slice : list (list Q)) :
  let d := TPXO.dataset self in
  wf_dataset d = true ->
  TPXO.index TPXO.CONSTITUENTS c = Ok k ->
  TPXO.layer a k = Ok slice ->
  rect (length (lon_axis d)) (length (lat_axis d)) slice = true ->
  TPXO._x vs <> [] ->
  TPXO._get_interpolation a c vs self
  = (scipy.griddata_nearest
       (map fst (candidate_points d vs)) (map snd (candidate_points d vs))
       (map snd (candidates d vs slice))
       (TPXO._x vs) (TPXO._y vs), self).
Proof.
  intros d Hwf Hidx Hlayer Hrect Hx.
  destruct (wf_dataset_facts d Hwf) as [_ _ Hsx Hsy _ _ _ _].
  pose proof (x_not_nil_y_not_nil vs Hx) as Hy.
  assert (Hlen : length (np.flatten slice) = length (grid_points d)).
  { rewrite (flatten_length _ _ _ Hrect).
    unfold grid_points; rewrite length_prod; reflexivity. }
  cbv beta iota zeta delta
      [TPXO._get_interpolation TPXO.x TPXO.y TPXO._assert_vertices
       TPXO.bind TPXO.ret TPXO.lift TPXO.getattr].
  run_with Hidx. run_with Hlayer.
  fold d. run_with Hsx. run_with Hsy.
  run_with (np_min_qmin _ Hx). run_with (np_max_qmax _ Hx).
  run_with (np_min_qmin _ Hy). run_with (np_max_qmax _ Hy).
  unfold TPXO._idx.
  rewrite meshgrid_flatten_combine.
  change (list_prod (lon_axis d) (lat_axis d)) with (grid_points d).
  change (TPXO.in_bbox (qmin (TPXO._x vs)) (qmax (TPXO._x vs))
                       (qmin (TPXO._y vs)) (qmax (TPXO._y vs))
                       (np.mean (np.diff (lon_axis d)))
                       (np.mean (np.diff (lat_axis d))))
    with (padded_bbox d vs).
  rewrite meshgrid_flatten_fst, meshgrid_flatten_snd.
  change (list_prod (lon_axis d) (lat_axis d)) with (grid_points d).
  run_with (take_where fst (padded_bbox d vs) (grid_points d)).
  run_with (take_where snd (padded_bbox d vs) (grid_points d)).
  assert (Hvals :
            np.take (np.flatten slice)
                    (np.where_ (map (padded_bbox d vs) (grid_points d)))
            = Ok (map snd (candidates d vs slice))).
  { unfold candidates.
    rewrite <- (map_snd_combine_same (grid_points d) (np.flatten slice))
      at 1 by (symmetry; exact Hlen).
    rewrite <- (map_fst_combine_same (grid_points d) (np.flatten slice))
      at 2 by (symmetry; exact Hlen).
    rewrite map_map.
    apply (take_where snd (fun pv => padded_bbox d vs (fst pv))). }
  run_with Hvals.
  reflexivity.
Qed.

Lemma combine_fst_snd {A B} (l : list (A * B)) :
  combine (map fst l) (map snd l) = l.
Proof.
  induction l as [|[a b] r IH]; simpl; [reflexivity | f_equal; exact IH].
Qed.

Lemma broadcast_same_length (a b : list Q) :
  length a = length b -> np.broadcast a b = Ok (combine a b).
Proof.
  intros H; unfold np.broadcast.
  rewrite (proj2 (Nat.eqb_eq _ _) H); reflexivity.
Qed.

(** [griddata] on the candidates of a query. *)
Lemma griddata_on_candidates (cv : list ((Q * Q) * Q)) (qx qy : list Q) :
  scipy.griddata_nearest (map fst (map fst cv)) (map snd (map fst cv))
                         (map snd cv) qx qy
  = match np.broadcast qx qy with
    | Err e => Err e
    | Ok xi => traverse (scipy.answer (map fst cv) (map snd cv)) xi
    end.
Proof.
  unfold scipy.griddata_nearest.
  rewrite broadcast_same_length by (rewrite !length_map; reflexivity).
  rewrite combine_fst_snd, !length_map, Nat.eqb_refl; reflexivity.
Qed.

Lemma all_negative_x (vs : list (Q * Q)) :
  all_negative vs = true ->
  TPXO._x vs = map (fun v => fst v + 360) vs.
Proof.
  unfold all_negative, TPXO._x.
  induction vs as [|v r IH]; simpl; [reflexivity|].
  intros H; apply andb_true_iff in H; destruct H as [Hv Hr].
  rewrite Hv; simpl. f_equal; apply IH, Hr.
Qed.

Lemma all_negative_broadcast (vs : list (Q * Q)) :
  all_negative vs = true ->
  np.broadcast (TPXO._x vs) (TPXO._y vs)
  = Ok (map (fun v => (fst v + 360, snd v)) vs).
Proof.
  intros H. rewrite (all_negative_x vs H). unfold TPXO._y.
  rewrite broadcast_same_length by (rewrite !length_map; reflexivity).
  f_equal. induction vs as [|v r IH]; simpl; [reflexivity|].
  simpl in H. unfold all_negative in H; simpl in H.
  apply andb_true_iff in H. f_equal; apply IH, H.
Qed.

(** A constituent of the catalog has a slice in a grid of 15 layers. *)
Lemma catalog_layer (a : list (list (list Q))) (c : string) :
  In c TPXO.CONSTITUENTS -> length a = 15%nat ->
  exists k, TPXO.index TPXO.CONSTITUENTS c = Ok k
            /\ TPXO.layer a k = Ok (constituent_slice a c)
            /\ In (constituent_slice a c) a.
Proof.
  intros Hin Hlen.
  destruct (index_from_in TPXO.CONSTITUENTS c 0 Hin) as [k [E Hk]].
  rewrite Nat.add_0_l in E.
  change (length TPXO.CONSTITUENTS) with 15%nat in Hk.
  exists k. unfold constituent_slice, TPXO.index.
  rewrite E. split; [reflexivity|].
  assert (Hlt : (k < length a)%nat) by lia.
  unfold TPXO.layer.
  rewrite (nth_error_nth' a [] Hlt).
  split; [reflexivity | apply nth_In; exact Hlt].
Qed.

(** The lookup on a grid of 15 well-shaped layers: for a constituent of
    the catalog, points with negative longitudes and a non-empty set of
    candidates, it returns one nearest-neighbour value per point. *)
Lemma get_interpolation_one_value_per_point
      (self : TPXO.t) (a : list (list (list Q)))
      (c : string) (vs : list (Q * Q)) :
  let d := TPXO.dataset self in
  wf_dataset d = true ->
  length a = 15%nat ->
  (forall s, In s a ->
             rect (length (lon_axis d)) (length (lat_axis d)) s = true) ->
  In c TPXO.CONSTITUENTS ->
  vs <> [] ->
  all_negative vs = true ->
  candidate_points d vs <> [] ->
  exists out,
    TPXO._get_interpolation a c vs self = (Ok out, self)
    /\ one_nearest_value_per_point d vs (constituent_slice a c) out.
Proof.
  intros d Hwf Hlen Hrect Hc Hvs Hneg Hcand.
  destruct (catalog_layer a c Hc Hlen) as [k [Hk [Hl Hin]]].
  set (slice := constituent_slice a c) in *.
  pose proof (Hrect slice Hin) as Hr.
  assert (Hx : TPXO._x vs <> []).
  { rewrite (all_negative_x vs Hneg). destruct vs; [congruence | discriminate]. }
  assert (Hfl : length (np.flatten slice) = length (grid_points d)).
  { rewrite (flatten_length _ _ _ Hr).
    unfold grid_points; rewrite length_prod; reflexivity. }
  pose proof (candidate_points_candidates d vs slice Hfl) as Hcp.
  rewrite (get_interpolation_run self a c vs k slice Hwf Hk Hl Hr Hx).
  fold d. rewrite Hcp.
  rewrite griddata_on_candidates, (all_negative_broadcast vs Hneg).
  rewrite Hcp in Hcand.
  destruct (traverse_pointwise
              (scipy.answer (map fst (candidates d vs slice))
                            (map snd (candidates d vs slice)))
              (fun q b =>
                 exists p w,
                   b = Fin w /\ In (p, w) (candidates d vs slice)
                   /\ forall p', In p' (map fst (candidates d vs slice)) ->
                                 scipy.dist2 p q <= scipy.dist2 p' q)
              (map (fun v => (fst v + 360, snd v)) vs))
    as [out [Et [Hlo Hn]]].
  { intros q. destruct (answer_nearest _ q Hcand) as [p [w [E [Hi Hm]]]].
    exists (Fin w). split; [exact E|]. exists p, w. auto. }
  exists out. split; [rewrite Et; reflexivity|].
  split; [rewrite Hlo, length_map; reflexivity|].
  intros i v Hv.
  destruct (Hn i (fst v + 360, snd v)) as [b [Hb [p [w [-> [Hi Hm]]]]]].
  { rewrite nth_error_map, Hv; reflexivity. }
  exists p, w. split; [exact Hb|]. split; [exact Hi|].
  intros p' Hp'. apply Hm. rewrite <- Hcp; exact Hp'.
Qed.

(** ** The two public lookups *)

Lemma get_amplitude_unfold (self : TPXO.t) (c : string) (vs : list (Q * Q)) :
  TPXO.get_amplitude c vs self
  = TPXO._get_interpolation (ha_var (TPXO.dataset self)) c vs self.
Proof. reflexivity. Qed.

Lemma get_phase_unfold (self : TPXO.t) (c : string) (vs : list (Q * Q)) :
  TPXO.get_phase c vs self
  = TPXO._get_interpolation (hp_var (TPXO.dataset self)) c vs self.
Proof. reflexivity. Qed.

(** Queries with negative longitudes.  On a well-formed dataset, for
    every constituent of the catalog and every non-empty sequence of N
    query points whose longitudes are all negative and whose padded
    bounding box holds at least one grid point, [get_amplitude] and
    [get_phase] return exactly N values, one per point in the order of
    the points: value [i] is the grid value at a candidate grid point
    nearest to point [i] (longitude shifted by 360). *)
Theorem lookup_one_value_per_point :
  forall (self : TPXO.t) (constituent : string) (vertices : list (Q * Q)),
    let d := TPXO.dataset self in
    wf_dataset d = true ->
    In constituent TPXO.CONSTITUENTS ->
    vertices <> [] ->
    all_negative vertices = true ->
    candidate_points d vertices <> [] ->
    (exists out,
        TPXO.get_amplitude constituent vertices self = (Ok out, self)
        /\ one_nearest_value_per_point
             d vertices (constituent_slice (ha_var d) constituent) out)
    /\ (exists out,
           TPXO.get_phase constituent vertices self = (Ok out, self)
           /\ one_nearest_value_per_point
                d vertices (constituent_slice (hp_var d) constituent) out).
Proof.
  intros self c vs d Hwf Hc Hvs Hneg Hcand.
  destruct (wf_dataset_facts d Hwf) as [_ _ _ _ Hla Hlp Hra Hrp].
  split.
  - rewrite get_amplitude_unfold.
    apply get_interpolation_one_value_per_point; assumption.
  - rewrite get_phase_unfold.
    apply get_interpolation_one_value_per_point; assumption.
Qed.

Lemma lookup_one_value_per_point_witness :
  let vertices := [(-170, 1); (-171, 2)] in
  (exists out,
      TPXO.get_amplitude "S2" vertices example_tpxo = (Ok out, example_tpxo)
      /\ one_nearest_value_per_point
           example_dataset vertices
           (constituent_slice (ha_var example_dataset) "S2") out)
  /\ (exists out,
         TPXO.get_phase "S2" vertices example_tpxo = (Ok out, example_tpxo)
         /\ one_nearest_value_per_point
              example_dataset vertices
              (constituent_slice (hp_var example_dataset) "S2") out).
Proof.
  apply (lookup_one_value_per_point example_tpxo "S2" [(-170, 1); (-171, 2)]).
  - vm_compute; reflexivity.
  - simpl; auto.
  - discriminate.
  - vm_compute; reflexivity.
  - vm_compute; discriminate.
Defined.

(** C1, at its failing inputs.  On a well-formed dataset and for the
    catalog constituent M2, a query point with a longitude that is not
    negative breaks the lookup: the single point (190, 1) ends it with
    the ValueError of [np.min] on the empty array [_x]; two negative
    longitudes and one that is not end it with the shape-mismatch
    ValueError; and for [(-170, 1); (188, 2)] two values come back, but
    the second is the one at grid node (190, 2), which is 22, where the
    node (188, 2) that the point sits on holds 2. *)
Theorem lookup_breaks_on_nonnegative_longitude :
  wf_dataset example_dataset = true
  /\ In "M2" TPXO.CONSTITUENTS
  /\ fst (TPXO.get_amplitude "M2" [(190, 1)] example_tpxo)
     = Err ValueError_zero_size_reduction
  /\ fst (TPXO.get_phase "M2" [(190, 1)] example_tpxo)
     = Err ValueError_zero_size_reduction
  /\ fst (TPXO.get_amplitude "M2" [(-170, 1); (-171, 2); (189, 0)]
                             example_tpxo)
     = Err ValueError_shape_mismatch
  /\ fst (TPXO.get_phase "M2" [(-170, 1); (-171, 2); (189, 0)]
                         example_tpxo)
     = Err ValueError_shape_mismatch
  /\ fst (TPXO.get_amplitude "M2" [(-170, 1); (188, 2)] example_tpxo)
     = Ok [Fin 21; Fin 22]
  /\ getitem2 (lon_z example_dataset) 0 0 = Some 188
  /\ getitem2 (lat_z example_dataset) 0 2 = Some 2
  /\ getitem3 (ha_var example_dataset) 0 0 2 = Some 2.
Proof.
  split; [vm_compute; reflexivity|].
  split; [simpl; auto|].
  repeat split; vm_compute; reflexivity.
Qed.

(** ** The candidate set *)

Lemma in_bbox_intervals (min_x max_x min_y max_y dx dy : Q) (p : Q * Q) :
  TPXO.in_bbox min_x max_x min_y max_y (Fin dx) (Fin dy) p = true
  <-> (min_x - 2 * dx <= fst p /\ fst p <= max_x + 2 * dx)
      /\ (min_y - 2 * dy <= snd p /\ snd p <= max_y + 2 * dy).
Proof.
  unfold TPXO.in_bbox, fge, fle, fsub, fadd, fdouble.
  rewrite !andb_true_iff, !Qle_bool_iff. reflexivity.
Qed.

(** With a NaN spacing every comparison fails: no point is in the box. *)
Lemma in_bbox_nan_dx (min_x max_x min_y max_y : Q) (dy : float) (p : Q * Q) :
  TPXO.in_bbox min_x max_x min_y max_y NaN dy p = false.
Proof. reflexivity. Qed.

(** [_x] is the normalisation of the specification applied to the
    negative longitudes only; a longitude that is not negative has no
    entry in [_x]. *)
Lemma x_is_normalisation_of_negatives (vs : list (Q * Q)) :
  TPXO._x vs
  = map normalize_longitude (filter (fun v => Qlt_bool v 0) (map fst vs)).
Proof.
  unfold TPXO._x. apply map_ext_in. intros v Hv.
  apply filter_In in Hv; destruct Hv as [_ Hv].
  unfold normalize_longitude; rewrite Hv; reflexivity.
Qed.

(** Where every longitude is negative, [_x] holds the normalised
    longitude of every query point. *)
Lemma all_negative_x_normalised (vs : list (Q * Q)) :
  all_negative vs = true ->
  TPXO._x vs = map normalize_longitude (map fst vs).
Proof.
  intros H. rewrite x_is_normalisation_of_negatives. f_equal.
  unfold all_negative in H.
  induction vs as [|v r IH]; simpl in *; [reflexivity|].
  apply andb_true_iff in H; destruct H as [Hv Hr].
  rewrite Hv, (IH Hr); reflexivity.
Qed.

(** The candidate set of the code.  In a lookup that gets as far as the
    bounding box (well-formed dataset, constituent of the catalog, at
    least one entry in the array [_x] of shifted negative longitudes),
    the points handed to [griddata] are the candidate set, computed once
    from the whole arrays [_x] and [_y], with their values in the
    constituent's slice; and the candidate set is exactly the set of
    grid points whose longitude lies in
    [min(_x) - 2 dx, max(_x) + 2 dx] and whose latitude lies in
    [min(_y) - 2 dy, max(_y) + 2 dy], where [dx] and [dy] are the means
    of the successive differences of the longitude and latitude axes and
    [min], [max] are the least and greatest entries of the arrays.  For
    a query whose longitudes are all negative, [_x] holds the normalised
    longitude of every query point. *)
Theorem candidate_set_is_padded_bbox :
  forall (self : TPXO.t) (constituent : string) (vertices : list (Q * Q))
         (dx dy : Q),
    let d := TPXO.dataset self in
    let qx := TPXO._x vertices in
    let qy := TPXO._y vertices in
    wf_dataset d = true ->
    In constituent TPXO.CONSTITUENTS ->
    qx <> [] ->
    np.mean (np.diff (lon_axis d)) = Fin dx ->
    np.mean (np.diff (lat_axis d)) = Fin dy ->
    TPXO.get_amplitude constituent vertices self
    = (scipy.griddata_nearest
         (map fst (candidate_points d vertices))
         (map snd (candidate_points d vertices))
         (map snd (candidates d vertices
                              (constituent_slice (ha_var d) constituent)))
         qx qy, self)
    /\ TPXO.get_phase constituent vertices self
       = (scipy.griddata_nearest
            (map fst (candidate_points d vertices))
            (map snd (candidate_points d vertices))
            (map snd (candidates d vertices
                                 (constituent_slice (hp_var d) constituent)))
            qx qy, self)
    /\ (forall lon lat,
           In (lon, lat) (candidate_points d vertices)
           <-> (In lon (lon_axis d) /\ In lat (lat_axis d))
               /\ (qmin qx - 2 * dx <= lon /\ lon <= qmax qx + 2 * dx)
               /\ (qmin qy - 2 * dy <= lat /\ lat <= qmax qy + 2 * dy))
    /\ (In (qmin qx) qx /\ forall q, In q qx -> qmin qx <= q)
    /\ (In (qmax qx) qx /\ forall q, In q qx -> q <= qmax qx)
    /\ (In (qmin qy) qy /\ forall q, In q qy -> qmin qy <= q)
    /\ (In (qmax qy) qy /\ forall q, In q qy -> q <= qmax qy)
    /\ (all_negative vertices = true ->
        qx = map normalize_longitude (map fst vertices)).
Proof.
  intros self c vs dx dy d qx qy Hwf Hc Hx Hdx Hdy.
  destruct (wf_dataset_facts d Hwf) as [_ _ _ _ Hla Hlp Hra Hrp].
  pose proof (x_not_nil_y_not_nil vs Hx) as Hy.
  split; [|split; [|split; [|repeat split]]].
  - rewrite get_amplitude_unfold.
    destruct (catalog_layer (ha_var d) c Hc Hla) as [k [Hk [Hl Hin]]].
    apply (get_interpolation_run self _ c vs k _ Hwf Hk Hl (Hra _ Hin) Hx).
  - rewrite get_phase_unfold.
    destruct (catalog_layer (hp_var d) c Hc Hlp) as [k [Hk [Hl Hin]]].
    apply (get_interpolation_run self _ c vs k _ Hwf Hk Hl (Hrp _ Hin) Hx).
  - intros lon lat. unfold candidate_points, grid_points.
    rewrite filter_In, in_prod_iff.
    unfold padded_bbox, grid_dx, grid_dy. rewrite Hdx, Hdy.
    rewrite in_bbox_intervals; simpl. tauto.
  - apply (qmin_spec qx Hx).
  - apply (qmin_spec qx Hx).
  - apply (qmax_spec qx Hx).
  - apply (qmax_spec qx Hx).
  - apply (qmin_spec qy Hy).
  - apply (qmin_spec qy Hy).
  - apply (qmax_spec qy Hy).
  - apply (qmax_spec qy Hy).
  - apply all_negative_x_normalised.
Qed.

Lemma candidate_set_is_padded_bbox_witness :
  let d := example_dataset in
  let vertices := [(-171, 5 # 2); (-170, 4)] in
  let qx := TPXO._x vertices in
  let qy := TPXO._y vertices in
  TPXO.get_amplitude "K1" vertices example_tpxo
  = (scipy.griddata_nearest
       (map fst (candidate_points d vertices))
       (map snd (candidate_points d vertices))
       (map snd (candidates d vertices (constituent_slice (ha_var d) "K1")))
       qx qy, example_tpxo)
  /\ TPXO.get_phase "K1" vertices example_tpxo
     = (scipy.griddata_nearest
          (map fst (candidate_points d vertices))
          (map snd (candidate_points d vertices))
          (map snd (candidates d vertices (constituent_slice (hp_var d) "K1")))
          qx qy, example_tpxo)
  /\ (forall lon lat,
         In (lon, lat) (candidate_points d vertices)
         <-> (In lon (lon_axis d) /\ In lat (lat_axis d))
             /\ (qmin qx - 2 * (4 # 4) <= lon /\ lon <= qmax qx + 2 * (4 # 4))
             /\ (qmin qy - 2 * (2 # 2) <= lat /\ lat <= qmax qy + 2 * (2 # 2)))
  /\ (In (qmin qx) qx /\ forall q, In q qx -> qmin qx <= q)
  /\ (In (qmax qx) qx /\ forall q, In q qx -> q <= qmax qx)
  /\ (In (qmin qy) qy /\ forall q, In q qy -> qmin qy <= q)
  /\ (In (qmax qy) qy /\ forall q, In q qy -> q <= qmax qy)
  /\ (all_negative vertices = true ->
      qx = map normalize_longitude (map fst vertices)).
Proof.
  apply (candidate_set_is_padded_bbox
           example_tpxo "K1" [(-171, 5 # 2); (-170, 4)] (4 # 4) (2 # 2)).
  - vm_compute; reflexivity.
  - simpl; auto 10.
  - vm_compute; discriminate.
  - vm_compute; reflexivity.
  - vm_compute; reflexivity.
Defined.

(** ** Empty candidate sets *)

Lemma broadcast_err (a b : list Q) (e : exn) :
  np.broadcast a b = Err e -> e = ValueError_shape_mismatch.
Proof.
  unfold np.broadcast.
  destruct (Nat.eqb (length a) (length b)); [discriminate|].
  destruct a as [|u [|u' a]]; destruct b as [|v [|v' b]];
    intros E; inversion E; reflexivity.
Qed.

Lemma broadcast_ok_lengths (a b : list Q) (xi : list (Q * Q)) :
  np.broadcast a b = Ok xi ->
  length a = length b \/ length a = 1%nat \/ length b = 1%nat.
Proof.
  unfold np.broadcast.
  destruct (Nat.eqb (length a) (length b)) eqn:E.
  - intros _; left; apply Nat.eqb_eq, E.
  - destruct a as [|u [|u' a]]; destruct b as [|v [|v' b]];
      intros H; try discriminate; simpl; auto.
Qed.

Lemma broadcast_ok_nonempty (a b : list Q) (xi : list (Q * Q)) :
  a <> [] -> b <> [] -> np.broadcast a b = Ok xi -> xi <> [].
Proof.
  unfold np.broadcast. intros Ha Hb.
  destruct (Nat.eqb (length a) (length b)).
  - destruct a; [congruence|]; destruct b; [congruence|].
    intros E; inversion E; discriminate.
  - destruct a as [|u [|u' a]]; destruct b as [|v [|v' b]];
      try congruence; intros E; inversion E; discriminate.
Qed.

(** With no candidate, [griddata] raises on the shapes of the query
    arrays if they do not broadcast, and else answers every query point
    with NaN. *)
Lemma get_interpolation_no_candidate
      (self : TPXO.t) (a : list (list (list Q)))
      (c : string) (vs : list (Q * Q)) :
  let d := TPXO.dataset self in
  wf_dataset d = true ->
  length a = 15%nat ->
  (forall s, In s a ->
             rect (length (lon_axis d)) (length (lat_axis d)) s = true) ->
  In c TPXO.CONSTITUENTS ->
  TPXO._x vs <> [] ->
  candidate_points d vs = [] ->
  TPXO._get_interpolation a c vs self
  = (match np.broadcast (TPXO._x vs) (TPXO._y vs) with
     | Ok xi => Ok (map (fun _ => NaN) xi)
     | Err _ => Err ValueError_shape_mismatch
     end, self).
Proof.
  intros d Hwf Hlen Hrect Hc Hx Hcand.
  destruct (catalog_layer a c Hc Hlen) as [k [Hk [Hl Hin]]].
  set (slice := constituent_slice a c) in *.
  pose proof (Hrect slice Hin) as Hr.
  assert (Hfl : length (np.flatten slice) = length (grid_points d)).
  { rewrite (flatten_length _ _ _ Hr).
    unfold grid_points; rewrite length_prod; reflexivity. }
  pose proof (candidate_points_candidates d vs slice Hfl) as Hcp.
  rewrite (get_interpolation_run self a c vs k slice Hwf Hk Hl Hr Hx).
  fold d. rewrite Hcp, griddata_on_candidates.
  rewrite Hcand in Hcp.
  destruct (candidates d vs slice) as [|cv0 cv]; [|discriminate].
  destruct (np.broadcast (TPXO._x vs) (TPXO._y vs)) as [xi|e] eqn:E.
  - f_equal. apply traverse_map_ok. intros q _. reflexivity.
  - rewrite (broadcast_err _ _ _ E); reflexivity.
Qed.

(** C4, amended.  On a well-formed dataset, for a constituent of the
    catalog and a query with at least one negative longitude whose padded
    bounding box holds no grid point, [get_amplitude] and [get_phase]
    raise no error for the empty candidate set: the empty arrays go to
    [griddata], which answers every query point with NaN, so a query
    with negative longitudes only gets one NaN per point.  The one
    error left is the shape-mismatch ValueError of query arrays that do
    not broadcast. *)
Theorem empty_candidate_set_gives_nan :
  forall (self : TPXO.t) (constituent : string) (vertices : list (Q * Q)),
    let d := TPXO.dataset self in
    let r := match np.broadcast (TPXO._x vertices) (TPXO._y vertices) with
             | Ok xi => Ok (map (fun _ => NaN) xi)
             | Err _ => Err ValueError_shape_mismatch
             end in
    wf_dataset d = true ->
    In constituent TPXO.CONSTITUENTS ->
    TPXO._x vertices <> [] ->
    candidate_points d vertices = [] ->
    TPXO.get_amplitude constituent vertices self = (r, self)
    /\ TPXO.get_phase constituent vertices self = (r, self)
    /\ (all_negative vertices = true ->
        r = Ok (map (fun _ => NaN) vertices)).
Proof.
  intros self c vs d r Hwf Hc Hx Hcand.
  destruct (wf_dataset_facts d Hwf) as [_ _ _ _ Hla Hlp Hra Hrp].
  split; [|split].
  - rewrite get_amplitude_unfold; fold d.
    apply (get_interpolation_no_candidate self _ c vs Hwf Hla Hra Hc Hx Hcand).
  - rewrite get_phase_unfold; fold d.
    apply (get_interpolation_no_candidate self _ c vs Hwf Hlp Hrp Hc Hx Hcand).
  - intros Hneg. subst r. rewrite (all_negative_broadcast vs Hneg).
    rewrite map_map. reflexivity.
Qed.

Lemma empty_candidate_set_gives_nan_witness :
  TPXO.get_amplitude "O1" [(-170, 80); (-171, 85)] example_tpxo
  = (Ok [NaN; NaN], example_tpxo)
  /\ TPXO.get_phase "O1" [(-170, 80); (-171, 85)] example_tpxo
     = (Ok [NaN; NaN], example_tpxo)
  /\ (all_negative [(-170, 80); (-171, 85)] = true ->
      Ok [NaN; NaN] = Ok (map (fun _ => NaN) [(-170, 80); (-171, 85)])).
Proof.
  apply (empty_candidate_set_gives_nan
           example_tpxo "O1" [(-170, 80); (-171, 85)]).
  - vm_compute; reflexivity.
  - simpl; auto 10.
  - vm_compute; discriminate.
  - vm_compute; reflexivity.
Defined.

(** C4, as stated, fails: the point (longitude -170, latitude 80) lies
    far outside the latitudes 0..2 of the example dataset, its padded
    bounding box holds no grid point, and yet neither lookup fails: each
    returns one NaN. *)
Lemma empty_candidate_set_counterexample :
  candidate_points example_dataset [(-170, 80)] = []
  /\ fst (TPXO.get_amplitude "M2" [(-170, 80)] example_tpxo) = Ok [NaN]
  /\ fst (TPXO.get_phase "M2" [(-170, 80)] example_tpxo) = Ok [NaN].
Proof. repeat split; vm_compute; reflexivity. Qed.

(** ** Queries with longitudes that are not negative *)

Lemma x_length_le (vs : list (Q * Q)) :
  (length (TPXO._x vs) <= length vs)%nat.
Proof.
  unfold TPXO._x. rewrite length_map.
  etransitivity; [apply filter_length_le | rewrite length_map; reflexivity].
Qed.

Lemma y_length (vs : list (Q * Q)) : length (TPXO._y vs) = length vs.
Proof. unfold TPXO._y; apply length_map. Qed.

Lemma griddata_ok_broadcast (px py values qx qy : list Q)
      (out : list float) :
  scipy.griddata_nearest px py values qx qy = Ok out ->
  exists xi, np.broadcast qx qy = Ok xi.
Proof.
  unfold scipy.griddata_nearest.
  destruct (np.broadcast px py); [|discriminate].
  destruct (negb _); [discriminate|].
  destruct (np.broadcast qx qy) as [xi|]; [|discriminate].
  intros _; exists xi; reflexivity.
Qed.

Ltac step_in H :=
  match type of H with
  | context [match ?r with Ok _ => _ | Err _ => _ end] =>
      let E := fresh "E" in
      destruct r eqn:E; cbv beta iota in H; simpl fst in H;
      [ | discriminate H ]
  end.

(** A lookup that returns has taken the minimum of [_x] and has had an
    answer from [griddata] on the arrays [_x] and [_y]. *)
Lemma get_interpolation_ok_inv (self : TPXO.t) (a : list (list (list Q)))
      (c : string) (vs : list (Q * Q)) (out : list float) :
  fst (TPXO._get_interpolation a c vs self) = Ok out ->
  TPXO._x vs <> []
  /\ exists px py values,
      scipy.griddata_nearest px py values (TPXO._x vs) (TPXO._y vs) = Ok out.
Proof.
  cbv beta iota zeta delta
      [TPXO._get_interpolation TPXO.x TPXO.y TPXO._assert_vertices
       TPXO.bind TPXO.ret TPXO.lift TPXO.getattr].
  intros H.
  do 8 step_in H.
  split.
  - intros Hnil.
    match goal with
    | E : np.min (TPXO._x vs) = Ok _ |- _ => rewrite Hnil in E; discriminate E
    end.
  - do 3 step_in H. eauto.
Qed.

(** A query without negative longitude stops at [np.min(_x)]. *)
Lemma get_interpolation_no_negative (self : TPXO.t)
      (a : list (list (list Q))) (c : string) (vs : list (Q * Q)) :
  let d := TPXO.dataset self in
  wf_dataset d = true ->
  length a = 15%nat ->
  In c TPXO.CONSTITUENTS ->
  TPXO._x vs = [] ->
  TPXO._get_interpolation a c vs self
  = (Err ValueError_zero_size_reduction, self).
Proof.
  intros d Hwf Hlen Hc Hx.
  destruct (wf_dataset_facts d Hwf) as [_ _ Hsx Hsy _ _ _ _].
  destruct (catalog_layer a c Hc Hlen) as [k [Hk [Hl _]]].
  cbv beta iota zeta delta
      [TPXO._get_interpolation TPXO.x TPXO.y TPXO._assert_vertices
       TPXO.bind TPXO.ret TPXO.lift TPXO.getattr].
  run_with Hk. run_with Hl. fold d. run_with Hsx. run_with Hsy.
  rewrite Hx; reflexivity.
Qed.

(** C10, amended.  Write [n] for the number of negative query
    longitudes, the length of [_x], and [N] for the number of points.  A
    lookup can return only when [n >= 1] and either [n = N] (every
    longitude is negative) or [n = 1] (the single normalised longitude is
    broadcast over the N latitudes); so with [2 <= n < N] the call fails
    before returning.  With [n = 0], on a well-formed dataset and a
    constituent of the catalog, the array [_x] is empty and taking its
    minimum fails.  And [n = N] holds exactly when every longitude is
    negative. *)
Theorem lookup_returns_only_if_all_or_one_negative :
  forall (self : TPXO.t) (constituent : string) (vertices : list (Q * Q)),
    let n := length (TPXO._x vertices) in
    let N := length vertices in
    (forall out,
        fst (TPXO.get_amplitude constituent vertices self) = Ok out
        \/ fst (TPXO.get_phase constituent vertices self) = Ok out ->
        (1 <= n)%nat /\ (n = N \/ n = 1%nat))
    /\ ((2 <= n)%nat -> (n < N)%nat ->
        is_ok (fst (TPXO.get_amplitude constituent vertices self)) = false
        /\ is_ok (fst (TPXO.get_phase constituent vertices self)) = false)
    /\ (wf_dataset (TPXO.dataset self) = true ->
        In constituent TPXO.CONSTITUENTS ->
        n = 0%nat ->
        TPXO.get_amplitude constituent vertices self
        = (Err ValueError_zero_size_reduction, self)
        /\ TPXO.get_phase constituent vertices self
           = (Err ValueError_zero_size_reduction, self))
    /\ (n = N <-> all_negative vertices = true).
Proof.
  intros self c vs n N.
  assert (Hret : forall a out,
             fst (TPXO._get_interpolation a c vs self) = Ok out ->
             (1 <= n)%nat /\ (n = N \/ n = 1%nat)).
  { intros a out H.
    destruct (get_interpolation_ok_inv self a c vs out H)
      as [Hx [px [py [values Hg]]]].
    destruct (griddata_ok_broadcast _ _ _ _ _ _ Hg) as [xi Hb].
    pose proof (broadcast_ok_lengths _ _ _ Hb) as Hlens.
    pose proof (x_length_le vs) as Hle.
    rewrite y_length in Hlens.
    assert (H1 : (1 <= n)%nat).
    { subst n. destruct (TPXO._x vs); [congruence | simpl; lia]. }
    subst n N. split; [exact H1 | lia]. }
  split; [|split; [|split]].
  - intros out [H|H].
    + rewrite get_amplitude_unfold in H. exact (Hret _ _ H).
    + rewrite get_phase_unfold in H. exact (Hret _ _ H).
  - intros H2 HN. split.
    + rewrite get_amplitude_unfold.
      destruct (fst (TPXO._get_interpolation _ c vs self)) as [out|e] eqn:E;
        [|reflexivity].
      destruct (Hret _ _ E) as [_ Hc]; lia.
    + rewrite get_phase_unfold.
      destruct (fst (TPXO._get_interpolation _ c vs self)) as [out|e] eqn:E;
        [|reflexivity].
      destruct (Hret _ _ E) as [_ Hc]; lia.
  - intros Hwf Hc Hn.
    destruct (wf_dataset_facts _ Hwf) as [_ _ _ _ Hla Hlp _ _].
    assert (Hx : TPXO._x vs = [])
      by (subst n; destruct (TPXO._x vs); [reflexivity | discriminate]).
    split.
    + rewrite get_amplitude_unfold.
      apply get_interpolation_no_negative; assumption.
    + rewrite get_phase_unfold.
      apply get_interpolation_no_negative; assumption.
  - subst n N. unfold TPXO._x, all_negative.
    rewrite length_map. clear.
    induction vs as [|v r IH]; simpl; [tauto|].
    pose proof (filter_length_le (fun v => Qlt_bool v 0) (map fst r)) as Hle.
    rewrite length_map in Hle.
    destruct (Qlt_bool (fst v) 0); simpl.
    + rewrite <- IH. split; intros H; lia.
    + split; [lia | discriminate].
Qed.

Lemma lookup_returns_only_if_all_or_one_negative_witness :
  let vertices := [(-170, 1); (190, 2)] in
  let n := length (TPXO._x vertices) in
  (1 <= n)%nat /\ (n = 2%nat \/ n = 1%nat).
Proof.
  refine (proj1 (lookup_returns_only_if_all_or_one_negative
                   example_tpxo "M2" [(-170, 1); (190, 2)])
                [Fin 21; Fin 22] _).
  left; vm_compute; reflexivity.
Defined.

(** C10, as stated, fails: with one negative longitude among two query
    points (the second longitude, 190, is not negative), both lookups
    complete normally; each returns two values, both taken at the
    normalised longitude 190 of the first point. *)
Lemma lookup_returns_with_one_negative_counterexample :
  Qlt_bool 190 0 = false
  /\ TPXO._x [(-170, 1); (190, 2)] = [190]
  /\ fst (TPXO.get_amplitude "M2" [(-170, 1); (190, 2)] example_tpxo)
     = Ok [Fin 21; Fin 22]
  /\ fst (TPXO.get_phase "M2" [(-170, 1); (190, 2)] example_tpxo)
     = Ok [Fin (- (21)); Fin (- (22))].
Proof. repeat split; vm_compute; reflexivity. Qed.

(** C2, at its failing input.  The longitude -170 is mapped to 190
    before interpolation, but the longitude 190 does not pass through:
    it is dropped from [_x].  So the point (-170, 1) gets the value at
    the grid node (190, 1), while the point (190, 1) ends the lookup with
    the ValueError of [np.min] on an empty array. *)
Theorem nonnegative_longitude_is_dropped :
  normalize_longitude (-170) = 190
  /\ normalize_longitude 190 = 190
  /\ TPXO._x [(-170, 1)] = [190]
  /\ TPXO._x [(190, 1)] = []
  /\ fst (TPXO.get_amplitude "M2" [(-170, 1)] example_tpxo) = Ok [Fin 21]
  /\ fst (TPXO.get_amplitude "M2" [(190, 1)] example_tpxo)
     = Err ValueError_zero_size_reduction
  /\ fst (TPXO.get_phase "M2" [(-170, 1)] example_tpxo) = Ok [Fin (- (21))]
  /\ fst (TPXO.get_phase "M2" [(190, 1)] example_tpxo)
     = Err ValueError_zero_size_reduction.
Proof. repeat split; vm_compute; reflexivity. Qed.

(** ** Construction *)

(** Whenever [__init__] raises its own error, [self.path] is [None], and
    the message is built from that. *)
Lemma init_own_error (DEFAULT_PATH : string) (getenv : option string)
      (TidalDataset_init : string -> option string)
      (netCDF4_Dataset : string -> result Dataset)
      (filename : string) :
  TidalDataset_init filename = None ->
  TPXO.__init__ DEFAULT_PATH getenv TidalDataset_init netCDF4_Dataset
                (Some filename)
  = Err (FileNotFoundError (TPXO.not_found_message None)).
Proof. intros H; unfold TPXO.__init__; rewrite H; reflexivity. Qed.

(** C5, at its failing input.  The base class keeps the file name it is
    given, so [self.path] is never [None] after [super().__init__] and
    the [raise] of [__init__] with the module's message cannot be
    reached: construction succeeds or fails as opening the dataset does,
    with the library's error.  Constructing with the path
    [/data/missing.nc] where no such file exists fails at construction
    with the FileNotFoundError of netCDF4, whose message contains the
    attempted path but names neither the provider
    (https://www.tpxo.net) nor the environment variable TPXO_NCFILE. *)
Theorem init_own_message_is_unreachable :
  forall (DEFAULT_PATH : string) (getenv : option string)
         (netCDF4_Dataset : string -> result Dataset)
         (argument : option string),
    let f := resolved_filename DEFAULT_PATH getenv argument in
    let message := no_such_file_message "/data/missing.nc" in
    TPXO.__init__ DEFAULT_PATH getenv TidalDataset_keeps_name
                  netCDF4_Dataset argument
    = match netCDF4_Dataset f with
      | Ok ds => Ok {| TPXO.path := Some f; TPXO.dataset := ds |}
      | Err e => Err e
      end
    /\ TPXO.__init__ DEFAULT_PATH None TidalDataset_keeps_name
                     (netCDF4_open (fun _ => None))
                     (Some "/data/missing.nc")
       = Err (FileNotFoundError message)
    /\ contains "/data/missing.nc" message = true
    /\ contains "https://www.tpxo.net" message = false
    /\ contains TPXO_ENVIRONMENT_VARIABLE message = false
    /\ contains "https://www.tpxo.net" (TPXO.not_found_message None) = true
    /\ contains TPXO_ENVIRONMENT_VARIABLE (TPXO.not_found_message None)
       = true.
Proof.
  intros D g N arg f message. split.
  - subst f. destruct arg as [x|]; [reflexivity|].
    destruct g; reflexivity.
  - repeat split; vm_compute; reflexivity.
Qed.

(* ================================================================== *)
(** * Further properties of the module *)

(** ** The catalog as a lookup table *)

Lemma index_from_ok_nth (l : list string) (name : string) (k0 k : nat) :
  TPXO.index_from k0 l name = Ok k ->
  exists i, k = (k0 + i)%nat /\ nth_error l i = Some name
            /\ forall j, (j < i)%nat -> nth_error l j <> Some name.
Proof.
  revert k0; induction l as [|s r IH]; intros k0; simpl.
  - discriminate.
  - destruct (String.eqb_spec s name) as [->|Hne].
    + intros E; inversion E; subst.
      exists 0%nat; repeat split; [lia | intros j Hj; lia].
    + intros E. destruct (IH (S k0) E) as [i [Hk [Hn Hfirst]]].
      exists (S i); repeat split; [lia | exact Hn |].
      intros [|j] Hj; simpl; [congruence | apply Hfirst; lia].
Qed.

Lemma index_from_nodup (l : list string) (name : string) (k0 i : nat) :
  NoDup l -> nth_error l i = Some name ->
  TPXO.index_from k0 l name = Ok (k0 + i)%nat.
Proof.
  revert k0 i; induction l as [|s r IH]; intros k0 i Hnd Hn.
  - destruct i; discriminate.
  - inversion Hnd as [|? ? Hnotin Hnd']; subst. simpl.
    destruct i as [|i]; simpl in Hn.
    + inversion Hn; subst. rewrite String.eqb_refl. f_equal; lia.
    + destruct (String.eqb_spec s name) as [->|Hne].
      * exfalso; apply Hnotin. eapply nth_error_In; exact Hn.
      * rewrite (IH (S k0) i Hnd' Hn). f_equal; lia.
Qed.

Lemma catalog_nodup : NoDup TPXO.CONSTITUENTS.
Proof.
  unfold TPXO.CONSTITUENTS.
  repeat (constructor; [simpl; intuition discriminate|]).
  constructor.
Qed.

(** The catalog lookup and positional access are inverse to each other:
    a name resolves to position [k] exactly when it is the entry at
    position [k], so no two names share a grid layer and every layer
    index below 15 belongs to one name. *)
Theorem catalog_index_roundtrip :
  forall (name : string) (k : nat),
    TPXO.index TPXO.CONSTITUENTS name = Ok k
    <-> nth_error TPXO.CONSTITUENTS k = Some name.
Proof.
  intros name k; split.
  - intros E. destruct (index_from_ok_nth _ _ _ _ E) as [i [-> [Hn _]]].
    exact Hn.
  - intros Hn. apply (index_from_nodup _ name 0 k catalog_nodup Hn).
Qed.

(** ** What a lookup returns, when it returns *)

Lemma traverse_ok_facts {A B} (f : A -> result B) (l : list A)
      (bs : list B) :
  traverse f l = Ok bs ->
  length bs = length l
  /\ forall b, In b bs -> exists a, In a l /\ f a = Ok b.
Proof.
  revert bs; induction l as [|a r IH]; intros bs; simpl.
  - intros E; inversion E; split; [reflexivity | intros b []].
  - destruct (f a) as [b0|e] eqn:E0; [|discriminate].
    destruct (traverse f r) as [bs'|e]; [|discriminate].
    intros E; inversion E; subst; clear E.
    destruct (IH bs' eq_refl) as [Hlen Hin].
    split; [simpl; f_equal; exact Hlen|].
    intros b [<-|Hb].
    + exists a; split; [left; reflexivity | exact E0].
    + destruct (Hin b Hb) as [a' [Ha' Hf]].
      exists a'; split; [right; exact Ha' | exact Hf].
Qed.

Lemma take_ok_in (a : list Q) (idx : list nat) (values : list Q) :
  np.take a idx = Ok values -> forall w, In w values -> In w a.
Proof.
  unfold np.take; intros E w Hw.
  destruct (traverse_ok_facts _ _ _ E) as [_ Hin].
  destruct (Hin w Hw) as [k [_ Hk]].
  destruct (nth_error a k) as [v|] eqn:En; [|discriminate].
  inversion Hk; subst. eapply nth_error_In; exact En.
Qed.

Lemma broadcast_ok_length (a b : list Q) (xi : list (Q * Q)) :
  np.broadcast a b = Ok xi ->
  (1 <= length a)%nat -> (length a <= length b)%nat ->
  length xi = length b.
Proof.
  unfold np.broadcast.
  destruct (Nat.eqb (length a) (length b)) eqn:E.
  - apply Nat.eqb_eq in E. intros H _ _; inversion H; subst.
    rewrite length_combine; lia.
  - apply Nat.eqb_neq in E.
    destruct a as [|u [|u' a]]; destruct b as [|v [|v' b]];
      intros H; inversion H; subst; simpl in *; intros; try lia;
      rewrite length_map; reflexivity.
Qed.

Lemma griddata_ok_inv (px py values qx qy : list Q) (out : list float) :
  scipy.griddata_nearest px py values qx qy = Ok out ->
  exists xi,
    np.broadcast qx qy = Ok xi
    /\ length out = length xi
    /\ ((forall r, In r out -> r = NaN)
        \/ (forall r, In r out -> exists w, r = Fin w /\ In w values)).
Proof.
  unfold scipy.griddata_nearest.
  destruct (np.broadcast px py) as [pts|]; [|discriminate].
  destruct (negb _); [discriminate|].
  destruct (np.broadcast qx qy) as [xi|]; [|discriminate].
  intros E. exists xi. split; [reflexivity|].
  destruct (traverse_ok_facts _ _ _ E) as [Hlen Hin].
  split; [exact Hlen|].
  destruct pts as [|p0 pts].
  - left. intros r Hr. destruct (Hin r Hr) as [q [_ Hq]].
    rewrite answer_empty in Hq. inversion Hq; reflexivity.
  - right. intros r Hr. destruct (Hin r Hr) as [q [_ Hq]].
    unfold scipy.answer in Hq. simpl scipy.query in Hq. cbv beta iota in Hq.
    destruct (nth_error values (scipy.argmin_from q pts 1 0 (scipy.dist2 p0 q)))
      as [v|] eqn:En; [|discriminate].
    inversion Hq; subst. exists v. split; [reflexivity|].
    eapply nth_error_In; exact En.
Qed.

(** A lookup that returns has resolved the constituent to a layer of the
    grid and has had its values from that layer. *)
Lemma get_interpolation_ok_layer (self : TPXO.t) (a : list (list (list Q)))
      (c : string) (vs : list (Q * Q)) (out : list float) :
  fst (TPXO._get_interpolation a c vs self) = Ok out ->
  exists k slice values px py,
    TPXO.index TPXO.CONSTITUENTS c = Ok k
    /\ nth_error a k = Some slice
    /\ TPXO._x vs <> []
    /\ (forall w, In w values -> In w (np.flatten slice))
    /\ scipy.griddata_nearest px py values (TPXO._x vs) (TPXO._y vs) = Ok out.
Proof.
  cbv beta iota zeta delta
      [TPXO._get_interpolation TPXO.x TPXO.y TPXO._assert_vertices
       TPXO.bind TPXO.ret TPXO.lift TPXO.getattr].
  intros H.
  do 11 step_in H.
  match goal with
  | E1 : TPXO.index _ c = Ok ?k, E2 : TPXO.layer a ?k = Ok ?s,
    E3 : np.min (TPXO._x vs) = Ok _,
    E4 : np.take (np.flatten ?s) _ = Ok ?v |- _ =>
      exists k, s, v; do 2 eexists; split; [reflexivity|]; split;
      [ unfold TPXO.layer in E2; destruct (nth_error a k); inversion E2;
        reflexivity | ];
      split; [ intros Hnil; rewrite Hnil in E3; discriminate E3 | ];
      split; [ exact (take_ok_in _ _ _ E4) | exact H ]
  end.
Qed.

Lemma get_interpolation_returns_stored_values
      (self : TPXO.t) (a : list (list (list Q)))
      (c : string) (vs : list (Q * Q)) (out : list float) :
  fst (TPXO._get_interpolation a c vs self) = Ok out ->
  length out = length vs
  /\ exists k slice,
      nth_error TPXO.CONSTITUENTS k = Some c
      /\ nth_error a k = Some slice
      /\ ((forall r, In r out -> r = NaN)
          \/ (forall r, In r out ->
                        exists w, r = Fin w /\ In w (np.flatten slice))).
Proof.
  intros H.
  destruct (get_interpolation_ok_layer self a c vs out H)
    as [k [slice [values [px [py [Hk [Hl [Hx [Hv Hg]]]]]]]]].
  destruct (griddata_ok_inv _ _ _ _ _ _ Hg) as [xi [Hb [Hlen Hin]]].
  split.
  - rewrite Hlen, <- (y_length vs).
    apply (broadcast_ok_length _ _ _ Hb).
    + destruct (TPXO._x vs); [congruence | simpl; lia].
    + rewrite y_length; apply x_length_le.
  - exists k, slice.
    destruct (index_from_ok_nth _ _ _ _ Hk) as [i [-> [Hn _]]].
    split; [exact Hn|].
    split; [exact Hl|].
    destruct Hin as [Hnan|Hval]; [left; exact Hnan|].
    right. intros r Hr. destruct (Hval r Hr) as [w [-> Hw]].
    exists w. split; [reflexivity | apply Hv, Hw].
Qed.

(** Whenever [get_amplitude] or [get_phase] returns, on any dataset, it
    returns exactly one value per query point, and either every value is
    NaN or every value is an entry of the grid layer at the catalog
    position of the constituent: apart from NaN the lookup never makes
    up a number. *)
Theorem lookup_returns_stored_values_or_nan :
  forall (self : TPXO.t) (constituent : string) (vertices : list (Q * Q))
         (out : list float),
    let d := TPXO.dataset self in
    (fst (TPXO.get_amplitude constituent vertices self) = Ok out ->
     length out = length vertices
     /\ exists k slice,
         nth_error TPXO.CONSTITUENTS k = Some constituent
         /\ nth_error (ha_var d) k = Some slice
         /\ ((forall r, In r out -> r = NaN)
             \/ (forall r, In r out ->
                           exists w, r = Fin w /\ In w (np.flatten slice))))
    /\ (fst (TPXO.get_phase constituent vertices self) = Ok out ->
        length out = length vertices
        /\ exists k slice,
            nth_error TPXO.CONSTITUENTS k = Some constituent
            /\ nth_error (hp_var d) k = Some slice
            /\ ((forall r, In r out -> r = NaN)
                \/ (forall r, In r out ->
                              exists w, r = Fin w
                                        /\ In w (np.flatten slice)))).
Proof.
  intros self c vs out d; split; intros H.
  - rewrite get_amplitude_unfold in H.
    apply (get_interpolation_returns_stored_values self _ c vs out H).
  - rewrite get_phase_unfold in H.
    apply (get_interpolation_returns_stored_values self _ c vs out H).
Qed.

Lemma lookup_returns_stored_values_or_nan_witness :
  let vertices := [(-170, 1); (190, 2)] in
  let out := [Fin 21; Fin 22] in
  length out = length vertices
  /\ exists k slice,
      nth_error TPXO.CONSTITUENTS k = Some "M2"
      /\ nth_error (ha_var example_dataset) k = Some slice
      /\ ((forall r, In r out -> r = NaN)
          \/ (forall r, In r out ->
                        exists w, r = Fin w /\ In w (np.flatten slice))).
Proof.
  refine (proj1 (lookup_returns_stored_values_or_nan
                   example_tpxo "M2" [(-170, 1); (190, 2)]
                   [Fin 21; Fin 22]) _).
  vm_compute; reflexivity.
Defined.

(** ** Lookups on a well-formed dataset *)

Lemma broadcast_mismatch (a b : list Q) :
  length a <> length b -> length a <> 1%nat -> length b <> 1%nat ->
  np.broadcast a b = Err ValueError_shape_mismatch.
Proof.
  unfold np.broadcast. intros Hab Ha Hb.
  rewrite (proj2 (Nat.eqb_neq _ _) Hab).
  destruct a as [|u [|u' a]]; destruct b as [|v [|v' b]];
    simpl in *; try congruence; reflexivity.
Qed.

Lemma broadcast_single (u : Q) (b : list Q) :
  np.broadcast [u] b = Ok (map (fun v => (u, v)) b).
Proof.
  unfold np.broadcast.
  destruct (Nat.eqb (length [u]) (length b)) eqn:E; [|reflexivity].
  apply Nat.eqb_eq in E. destruct b as [|v [|v' b]]; try discriminate.
  reflexivity.
Qed.

(** [griddata] on a non-empty set of candidates answers every query
    point with the value of a candidate nearest to it. *)
Lemma griddata_candidates_nearest (cv : list ((Q * Q) * Q))
      (qx qy : list Q) (xi : list (Q * Q)) :
  map fst cv <> [] ->
  np.broadcast qx qy = Ok xi ->
  exists out,
    scipy.griddata_nearest (map fst (map fst cv)) (map snd (map fst cv))
                           (map snd cv) qx qy = Ok out
    /\ length out = length xi
    /\ forall i q,
        nth_error xi i = Some q ->
        exists p w,
          nth_error out i = Some (Fin w) /\ In (p, w) cv
          /\ forall p', In p' (map fst cv) ->
                        scipy.dist2 p q <= scipy.dist2 p' q.
Proof.
  intros Hne Hb. rewrite griddata_on_candidates, Hb.
  destruct (traverse_pointwise
              (scipy.answer (map fst cv) (map snd cv))
              (fun q b =>
                 exists p w,
                   b = Fin w /\ In (p, w) cv
                   /\ forall p', In p' (map fst cv) ->
                                 scipy.dist2 p q <= scipy.dist2 p' q)
              xi)
    as [out [Et [Hlo Hn]]].
  { intros q. destruct (answer_nearest _ q Hne) as [p [w [E [Hi Hm]]]].
    exists (Fin w). split; [exact E|]. exists p, w. auto. }
  exists out. split; [exact Et|]. split; [exact Hlo|].
  intros i q Hi.
  destruct (Hn i q Hi) as [b [Hb' [p [w [-> [Hin Hm]]]]]].
  exists p, w. auto.
Qed.

Lemma get_interpolation_unknown (self : TPXO.t) (a : list (list (list Q)))
      (c : string) (vs : list (Q * Q)) :
  ~ In c TPXO.CONSTITUENTS ->
  TPXO._get_interpolation a c vs self
  = (Err (ValueError_not_in_list c), self).
Proof.
  intros Hn.
  pose proof (index_from_not_in TPXO.CONSTITUENTS c 0 Hn) as E.
  unfold TPXO._get_interpolation, TPXO._assert_vertices, TPXO.bind,
    TPXO.ret, TPXO.lift, TPXO.index.
  rewrite E; reflexivity.
Qed.

Section WellFormedLookup.

Variable self : TPXO.t.
Variable a : list (list (list Q)).
Variable c : string.
Variable vs : list (Q * Q).

Let d := TPXO.dataset self.

Hypothesis Hwf : wf_dataset d = true.
Hypothesis Hlen : length a = 15%nat.
Hypothesis Hrect :
  forall s, In s a ->
            rect (length (lon_axis d)) (length (lat_axis d)) s = true.
Hypothesis Hc : In c TPXO.CONSTITUENTS.
Hypothesis Hx : TPXO._x vs <> [].

(** The lookup as one call of [griddata] on the candidates and their
    values in the slice of the constituent. *)
Lemma get_interpolation_on_candidates :
  length (candidates d vs (constituent_slice a c))
  = length (candidate_points d vs)
  /\ candidate_points d vs = map fst (candidates d vs (constituent_slice a c))
  /\ TPXO._get_interpolation a c vs self
     = (match np.broadcast (TPXO._x vs) (TPXO._y vs) with
        | Err e => Err e
        | Ok xi =>
            traverse
              (scipy.answer
                 (candidate_points d vs)
                 (map snd (candidates d vs (constituent_slice a c)))) xi
        end, self).
Proof.
  destruct (catalog_layer a c Hc Hlen) as [k [Hk [Hl Hin]]].
  pose proof (Hrect _ Hin) as Hr.
  assert (Hfl : length (np.flatten (constituent_slice a c))
                = length (grid_points d)).
  { rewrite (flatten_length _ _ _ Hr).
    unfold grid_points; rewrite length_prod; reflexivity. }
  pose proof (candidate_points_candidates d vs _ Hfl) as Hcp.
  split; [rewrite Hcp, length_map; reflexivity|].
  split; [exact Hcp|].
  rewrite (get_interpolation_run self a c vs k _ Hwf Hk Hl Hr Hx).
  fold d. rewrite Hcp at 1 2. rewrite griddata_on_candidates.
  rewrite <- Hcp. reflexivity.
Qed.

(** Two or more negative longitudes, but not all: the arrays [_x] and
    [_y] do not broadcast. *)
Lemma get_interpolation_shape_mismatch :
  (2 <= length (TPXO._x vs))%nat ->
  (length (TPXO._x vs) < length vs)%nat ->
  TPXO._get_interpolation a c vs self = (Err ValueError_shape_mismatch, self).
Proof.
  intros H2 HN.
  destruct get_interpolation_on_candidates as [_ [_ E]]. rewrite E.
  rewrite broadcast_mismatch; [reflexivity | | | ];
    rewrite ?y_length; lia.
Qed.

(** With candidates, the lookup answers every broadcast query point
    with the value of a candidate nearest to it. *)
Lemma get_interpolation_nearest (xi : list (Q * Q)) :
  candidate_points d vs <> [] ->
  np.broadcast (TPXO._x vs) (TPXO._y vs) = Ok xi ->
  exists out,
    TPXO._get_interpolation a c vs self = (Ok out, self)
    /\ length out = length xi
    /\ forall i q,
        nth_error xi i = Some q ->
        exists p w,
          nth_error out i = Some (Fin w)
          /\ In (p, w) (candidates d vs (constituent_slice a c))
          /\ forall p', In p' (candidate_points d vs) ->
                        scipy.dist2 p q <= scipy.dist2 p' q.
Proof.
  intros Hcand Hb.
  destruct get_interpolation_on_candidates as [_ [Hcp E]].
  rewrite Hcp in Hcand.
  destruct (griddata_candidates_nearest _ _ _ _ Hcand Hb)
    as [out [Hg [Hl Hn]]].
  exists out. split; [|split; [exact Hl|]].
  - rewrite E, Hb. rewrite griddata_on_candidates, Hb in Hg.
    rewrite Hcp. rewrite Hg; reflexivity.
  - intros i q Hi. destruct (Hn i q Hi) as [p [w [H1 [H2 H3]]]].
    exists p, w. repeat split; try assumption.
    intros p' Hp'. apply H3. rewrite <- Hcp; exact Hp'.
Qed.

End WellFormedLookup.

Lemma traverse_agree {A B} (f g : A -> result B) (l : list A) :
  (forall q, match f q, g q with
             | Ok _, Ok _ => True
             | Err e, Err e' => e = e'
             | _, _ => False
             end) ->
  match traverse f l, traverse g l with
  | Ok u, Ok v => length u = length v
  | Err e, Err e' => e = e'
  | _, _ => False
  end.
Proof.
  intros H. induction l as [|q r IH]; simpl; [reflexivity|].
  specialize (H q).
  destruct (f q) as [u0|e]; destruct (g q) as [v0|e']; try contradiction;
    [|exact H].
  destruct (traverse f r) as [u|e]; destruct (traverse g r) as [v|e'];
    try contradiction; simpl; [f_equal; exact IH | exact IH].
Qed.

(** On a well-formed dataset the amplitude and the phase lookup succeed
    or fail together: for the same constituent name and points, either
    both return (the same number of values) or both raise the same
    error.  Whether a lookup returns depends on the name, the points and
    the axes, never on the values stored in the grids. *)
Theorem lookups_succeed_or_fail_together :
  forall (self : TPXO.t) (constituent : string) (vertices : list (Q * Q)),
    wf_dataset (TPXO.dataset self) = true ->
    match fst (TPXO.get_amplitude constituent vertices self),
          fst (TPXO.get_phase constituent vertices self) with
    | Ok amplitude, Ok phase => length amplitude = length phase
    | Err e, Err e' => e = e'
    | _, _ => False
    end.
Proof.
  intros self c vs Hwf.
  rewrite get_amplitude_unfold, get_phase_unfold.
  set (d := TPXO.dataset self) in *.
  destruct (wf_dataset_facts d Hwf) as [_ _ _ _ Hla Hlp Hra Hrp].
  destruct (in_dec string_dec c TPXO.CONSTITUENTS) as [Hc|Hc].
  - destruct (TPXO._x vs) as [|x0 xr] eqn:Ex.
    + rewrite !(get_interpolation_no_negative self _ c vs) by assumption.
      reflexivity.
    + assert (Hx : TPXO._x vs <> []) by (rewrite Ex; discriminate).
      destruct (get_interpolation_on_candidates
                  self (ha_var d) c vs Hwf Hla Hra Hc Hx) as [La [_ Ea]].
      destruct (get_interpolation_on_candidates
                  self (hp_var d) c vs Hwf Hlp Hrp Hc Hx) as [Lp [_ Ep]].
      rewrite Ex in Ea, Ep. rewrite Ea, Ep; simpl fst.
      destruct (np.broadcast (x0 :: xr) (TPXO._y vs)) as [xi|e];
        [|reflexivity].
      apply traverse_agree. intros q.
      fold d in La, Lp |- *.
      unfold scipy.answer.
      destruct (scipy.query (candidate_points d vs) q) as [k|]; [|exact I].
      destruct (Nat.lt_ge_cases k (length (candidate_points d vs))) as [Hk|Hk].
      * destruct (nth_error (map snd (candidates d vs
                    (constituent_slice (ha_var d) c))) k) eqn:E1.
        2:{ apply nth_error_None in E1. rewrite length_map in E1. lia. }
        destruct (nth_error (map snd (candidates d vs
                    (constituent_slice (hp_var d) c))) k) eqn:E2; [exact I|].
        apply nth_error_None in E2. rewrite length_map in E2. lia.
      * rewrite (proj2 (nth_error_None _ _)), (proj2 (nth_error_None _ _));
          [reflexivity | |]; rewrite length_map; lia.
  - rewrite !(get_interpolation_unknown self _ c vs Hc). reflexivity.
Qed.

Lemma lookups_succeed_or_fail_together_witness :
  match fst (TPXO.get_amplitude "M2" [(-170, 1); (-171, 2); (10, 0)]
                                example_tpxo),
        fst (TPXO.get_phase "M2" [(-170, 1); (-171, 2); (10, 0)]
                            example_tpxo) with
  | Ok amplitude, Ok phase => length amplitude = length phase
  | Err e, Err e' => e = e'
  | _, _ => False
  end.
Proof.
  apply (lookups_succeed_or_fail_together
           example_tpxo "M2" [(-170, 1); (-171, 2); (10, 0)]).
  vm_compute; reflexivity.
Defined.

(** On a well-formed dataset, for a constituent of the catalog, a query
    with at least two negative longitudes and at least one that is not
    negative ends with the shape-mismatch ValueError of the broadcast of
    [_x] against [_y], whatever the candidate set is. *)
Theorem mixed_longitudes_shape_mismatch :
  forall (self : TPXO.t) (constituent : string) (vertices : list (Q * Q)),
    wf_dataset (TPXO.dataset self) = true ->
    In constituent TPXO.CONSTITUENTS ->
    (2 <= length (TPXO._x vertices))%nat ->
    (length (TPXO._x vertices) < length vertices)%nat ->
    TPXO.get_amplitude constituent vertices self
    = (Err ValueError_shape_mismatch, self)
    /\ TPXO.get_phase constituent vertices self
       = (Err ValueError_shape_mismatch, self).
Proof.
  intros self c vs Hwf Hc H2 HN.
  destruct (wf_dataset_facts _ Hwf) as [_ _ _ _ Hla Hlp Hra Hrp].
  assert (Hx : TPXO._x vs <> [])
    by (destruct (TPXO._x vs); [simpl in H2; lia | discriminate]).
  split.
  - rewrite get_amplitude_unfold.
    apply get_interpolation_shape_mismatch; assumption.
  - rewrite get_phase_unfold.
    apply get_interpolation_shape_mismatch; assumption.
Qed.

Lemma mixed_longitudes_shape_mismatch_witness :
  TPXO.get_amplitude "Q1" [(-170, 1); (10, 0); (-171, 2)] example_tpxo
  = (Err ValueError_shape_mismatch, example_tpxo)
  /\ TPXO.get_phase "Q1" [(-170, 1); (10, 0); (-171, 2)] example_tpxo
     = (Err ValueError_shape_mismatch, example_tpxo).
Proof.
  apply (mixed_longitudes_shape_mismatch
           example_tpxo "Q1" [(-170, 1); (10, 0); (-171, 2)]).
  - vm_compute; reflexivity.
  - simpl; auto 10.
  - vm_compute; lia.
  - vm_compute; lia.
Defined.

(** On a well-formed dataset, for a constituent of the catalog, a query
    with exactly one negative longitude and a non-empty candidate set
    returns one value per point, but every point is looked up at the
    normalised longitude [x0] of that one point: value [i] belongs to a
    candidate nearest to [(x0, latitude i)], whatever the longitude of
    point [i] is. *)
Theorem single_negative_longitude_is_broadcast :
  forall (self : TPXO.t) (constituent : string) (vertices : list (Q * Q))
         (x0 : Q),
    let d := TPXO.dataset self in
    let xi := map (fun v => (x0, snd v)) vertices in
    wf_dataset d = true ->
    In constituent TPXO.CONSTITUENTS ->
    TPXO._x vertices = [x0] ->
    candidate_points d vertices <> [] ->
    (exists out,
        TPXO.get_amplitude constituent vertices self = (Ok out, self)
        /\ length out = length vertices
        /\ nearest_values_at
             d vertices (constituent_slice (ha_var d) constituent) xi out)
    /\ (exists out,
           TPXO.get_phase constituent vertices self = (Ok out, self)
           /\ length out = length vertices
           /\ nearest_values_at
                d vertices (constituent_slice (hp_var d) constituent) xi out).
Proof.
  intros self c vs x0 d xi Hwf Hc Ex Hcand.
  destruct (wf_dataset_facts _ Hwf) as [_ _ _ _ Hla Hlp Hra Hrp].
  assert (Hx : TPXO._x vs <> []) by (rewrite Ex; discriminate).
  assert (Hb : np.broadcast (TPXO._x vs) (TPXO._y vs) = Ok xi).
  { rewrite Ex, broadcast_single. unfold TPXO._y, xi.
    rewrite map_map; reflexivity. }
  assert (Hlx : length xi = length vs) by (unfold xi; apply length_map).
  split.
  - rewrite get_amplitude_unfold.
    destruct (get_interpolation_nearest
                self (ha_var d) c vs Hwf Hla Hra Hc Hx xi Hcand Hb)
      as [out [E [Hl Hn]]].
    exists out. split; [exact E|]. split; [lia|]. split; assumption.
  - rewrite get_phase_unfold.
    destruct (get_interpolation_nearest
                self (hp_var d) c vs Hwf Hlp Hrp Hc Hx xi Hcand Hb)
      as [out [E [Hl Hn]]].
    exists out. split; [exact E|]. split; [lia|]. split; assumption.
Qed.

Lemma single_negative_longitude_is_broadcast_witness :
  let d := example_dataset in
  let vertices := [(189, 0); (-170, 1); (191, 2)] in
  let xi := map (fun v => (190, snd v)) vertices in
  (exists out,
      TPXO.get_amplitude "N2" vertices example_tpxo = (Ok out, example_tpxo)
      /\ length out = length vertices
      /\ nearest_values_at
           d vertices (constituent_slice (ha_var d) "N2") xi out)
  /\ (exists out,
         TPXO.get_phase "N2" vertices example_tpxo = (Ok out, example_tpxo)
         /\ length out = length vertices
         /\ nearest_values_at
              d vertices (constituent_slice (hp_var d) "N2") xi out).
Proof.
  apply (single_negative_longitude_is_broadcast
           example_tpxo "N2" [(189, 0); (-170, 1); (191, 2)] 190).
  - vm_compute; reflexivity.
  - simpl; auto 10.
  - vm_compute; reflexivity.
  - vm_compute; discriminate.
Defined.

(** ** The grid spacing *)

Lemma diff_length (a : list Q) : length (np.diff a) = (length a - 1)%nat.
Proof.
  induction a as [|u r IH]; [reflexivity|].
  destruct r as [|v r]; [reflexivity|].
  change (np.diff (u :: v :: r)) with ((v - u) :: np.diff (v :: r)).
  simpl length in *. rewrite IH. lia.
Qed.

Lemma sum_diff (u : Q) (r : list Q) :
  np.sum (np.diff (u :: r)) == last (u :: r) 0 - u.
Proof.
  revert u; induction r as [|v r IH]; intros u.
  - simpl. ring.
  - change (np.diff (u :: v :: r)) with ((v - u) :: np.diff (v :: r)).
    change (last (u :: v :: r) 0) with (last (v :: r) 0).
    change (np.sum ((v - u) :: np.diff (v :: r)))
      with ((v - u) + np.sum (np.diff (v :: r))).
    rewrite IH. ring.
Qed.

Lemma mean_diff_short (a : list Q) :
  length a = 1%nat -> np.mean (np.diff a) = NaN.
Proof. destruct a as [|u [|v r]]; simpl; intros H; try lia; reflexivity. Qed.

Lemma mean_diff_long (a : list Q) :
  (2 <= length a)%nat ->
  exists q,
    np.mean (np.diff a) = Fin q
    /\ q == (last a 0 - hd 0 a) / inject_Z (Z.of_nat (length a - 1)).
Proof.
  intros H.
  destruct a as [|u [|v r]]; simpl in H; try lia.
  pose proof (diff_length (u :: v :: r)) as Hl.
  pose proof (sum_diff u (v :: r)) as Hs.
  change (np.diff (u :: v :: r)) with ((v - u) :: np.diff (v :: r)) in *.
  eexists; split; [reflexivity|].
  rewrite Hl, Hs. reflexivity.
Qed.

Lemma filter_all_false {A} (f : A -> bool) (l : list A) :
  (forall p, f p = false) -> filter f l = [].
Proof.
  intros H; induction l as [|p r IH]; simpl; [reflexivity|].
  rewrite H; exact IH.
Qed.

Lemma in_bbox_nan_dy (min_x max_x min_y max_y : Q) (dx : float) (p : Q * Q) :
  TPXO.in_bbox min_x max_x min_y max_y dx NaN p = false.
Proof. unfold TPXO.in_bbox; simpl. apply andb_false_r. Qed.




Lemma no_candidate_gives_nan (self : TPXO.t) (c : string)
      (vs : list (Q * Q)) :
  let d := TPXO.dataset self in
  let r := match np.broadcast (TPXO._x vs) (TPXO._y vs) with
           | Ok xi => Ok (map (fun _ => NaN) xi)
           | Err _ => Err ValueError_shape_mismatch
           end in
  wf_dataset d = true ->
  In c TPXO.CONSTITUENTS ->
  TPXO._x vs <> [] ->
  candidate_points d vs = [] ->
  TPXO.get_amplitude c vs self = (r, self)
  /\ TPXO.get_phase c vs self = (r, self).
Proof.
  intros d r Hwf Hc Hx Hcand.
  destruct (wf_dataset_facts d Hwf) as [_ _ _ _ Hla Hlp Hra Hrp].
  split.
  - rewrite get_amplitude_unfold; fold d.
    apply (get_interpolation_no_candidate self _ c vs Hwf Hla Hra Hc Hx Hcand).
  - rewrite get_phase_unfold; fold d.
    apply (get_interpolation_no_candidate self _ c vs Hwf Hlp Hrp Hc Hx Hcand).
Qed.

(** A dataset with a single longitude or a single latitude has no grid
    spacing (the mean of no differences is NaN), so no grid point ever
    passes the bounding-box test: every lookup that gets as far as the
    box has an empty candidate set and answers every query point with
    NaN, even a point that sits on a grid node. *)
Theorem single_entry_axis_has_no_candidates :
  forall (self : TPXO.t) (constituent : string) (vertices : list (Q * Q)),
    let d := TPXO.dataset self in
    let r := match np.broadcast (TPXO._x vertices) (TPXO._y vertices) with
             | Ok xi => Ok (map (fun _ => NaN) xi)
             | Err _ => Err ValueError_shape_mismatch
             end in
    wf_dataset d = true ->
    In constituent TPXO.CONSTITUENTS ->
    TPXO._x vertices <> [] ->
    length (lon_axis d) = 1%nat \/ length (lat_axis d) = 1%nat ->
    candidate_points d vertices = []
    /\ TPXO.get_amplitude constituent vertices self = (r, self)
    /\ TPXO.get_phase constituent vertices self = (r, self).
Proof.
  intros self c vs d r Hwf Hc Hx Hone.
  assert (Hcand : candidate_points d vs = []).
  { unfold candidate_points. apply filter_all_false. intros p.
    unfold padded_bbox, grid_dx, grid_dy.
    destruct Hone as [H|H]; rewrite (mean_diff_short _ H).
    - reflexivity.
    - apply in_bbox_nan_dy. }
  split; [exact Hcand|].
  apply no_candidate_gives_nan; assumption.
Qed.

Lemma single_entry_axis_has_no_candidates_witness :
  let self := {| TPXO.path := None;
                 TPXO.dataset := example_grid [190] [0; 1; 2] |} in
  candidate_points (TPXO.dataset self) [(-170, 1)] = []
  /\ TPXO.get_amplitude "M2" [(-170, 1)] self = (Ok [NaN], self)
  /\ TPXO.get_phase "M2" [(-170, 1)] self = (Ok [NaN], self).
Proof.
  apply (single_entry_axis_has_no_candidates
           {| TPXO.path := None;
              TPXO.dataset := example_grid [190] [0; 1; 2] |}
           "M2" [(-170, 1)]).
  - vm_compute; reflexivity.
  - simpl; auto.
  - vm_compute; discriminate.
  - left; reflexivity.
Defined.

(** ** A query point on a grid node *)

Lemma increasing_tail (u : Q) (r : list Q) :
  increasing (u :: r) = true -> increasing r = true.
Proof.
  destruct r as [|v r]; [reflexivity|].
  change (increasing (u :: v :: r))
    with (Qlt_bool u v && increasing (v :: r)).
  intros H; apply andb_true_iff in H; apply H.
Qed.

Lemma increasing_head (u : Q) (r : list Q) :
  increasing (u :: r) = true -> forall v, In v r -> u < v.
Proof.
  revert u; induction r as [|v0 r IH]; intros u H v Hin; [destruct Hin|].
  change (increasing (u :: v0 :: r))
    with (Qlt_bool u v0 && increasing (v0 :: r)) in H.
  apply andb_true_iff in H; destruct H as [H0 Hr].
  apply Qlt_bool_true in H0.
  destruct Hin as [<-|Hin]; [exact H0|].
  eapply Qlt_trans; [exact H0 | apply (IH v0 Hr v Hin)].
Qed.

Lemma increasing_nth (a : list Q) (i i' : nat) (u u' : Q) :
  increasing a = true ->
  nth_error a i = Some u -> nth_error a i' = Some u' ->
  (i < i')%nat -> u < u'.
Proof.
  revert i i'; induction a as [|x r IH]; intros i i' Hinc Hi Hi' Hlt.
  - destruct i; discriminate.
  - destruct i' as [|k']; [lia|]. simpl in Hi'.
    destruct i as [|k]; simpl in Hi.
    + inversion Hi; subst.
      apply (increasing_head u r Hinc). eapply nth_error_In; exact Hi'.
    + apply (IH k k' (increasing_tail x r Hinc) Hi Hi'). lia.
Qed.

(** On an increasing axis equal coordinates sit at equal positions. *)
Lemma increasing_nth_inj (a : list Q) (i i' : nat) (u u' : Q) :
  increasing a = true ->
  nth_error a i = Some u -> nth_error a i' = Some u' ->
  u == u' -> i = i'.
Proof.
  intros Hinc Hi Hi' Heq.
  destruct (Nat.lt_trichotomy i i') as [H|[H|H]]; [|exact H|].
  - pose proof (increasing_nth a i i' u u' Hinc Hi Hi' H). lra.
  - pose proof (increasing_nth a i' i u' u Hinc Hi' Hi H). lra.
Qed.

Lemma last_in (l : list Q) (d : Q) : l <> [] -> In (last l d) l.
Proof.
  induction l as [|u r IH]; [congruence|]; intros _.
  destruct r as [|v r]; [left; reflexivity|].
  right. apply IH; discriminate.
Qed.

Lemma increasing_spacing_nonneg (a : list Q) :
  increasing a = true -> (2 <= length a)%nat ->
  exists q, np.mean (np.diff a) = Fin q /\ 0 <= q.
Proof.
  intros Hinc H2. destruct (mean_diff_long a H2) as [q [E Hq]].
  exists q; split; [exact E|]. rewrite Hq.
  destruct a as [|u [|v r]]; simpl in H2; try lia.
  assert (Hlt : u < last (u :: v :: r) 0).
  { apply (increasing_head u (v :: r) Hinc).
    change (last (u :: v :: r) 0) with (last (v :: r) 0).
    apply last_in; discriminate. }
  apply Qle_shift_div_l.
  - change 0 with (inject_Z 0). rewrite <- Zlt_Qlt. simpl length. lia.
  - simpl hd. lra.
Qed.





Lemma in_combine_nth {A B} (l : list A) (m : list B) (x : A) (y : B) :
  In (x, y) (combine l m) ->
  exists k, nth_error l k = Some x /\ nth_error m k = Some y.
Proof.
  revert m; induction l as [|a r IH]; intros [|b m] H; simpl in H;
    try contradiction.
  destruct H as [E|H].
  - inversion E; subst. exists 0%nat; split; reflexivity.
  - destruct (IH m H) as [k [H1 H2]]. exists (S k); split; assumption.
Qed.

Lemma list_prod_nth_inv {A B} (l : list A) (m : list B) (k : nat) x y :
  nth_error (list_prod l m) k = Some (x, y) ->
  exists i j, k = (i * length m + j)%nat
              /\ nth_error l i = Some x /\ nth_error m j = Some y.
Proof.
  revert k; induction l as [|a r IH]; intros k H; simpl in H.
  - destruct k; discriminate.
  - destruct (Nat.lt_ge_cases k (length m)) as [Hk|Hk].
    + rewrite nth_error_app1 in H by (rewrite length_map; exact Hk).
      rewrite nth_error_map in H.
      destruct (nth_error m k) as [b|] eqn:E; [|discriminate].
      simpl in H; inversion H; subst.
      exists 0%nat, k. split; [lia|]. split; [reflexivity | exact E].
    + rewrite nth_error_app2 in H by (rewrite length_map; exact Hk).
      rewrite length_map in H.
      destruct (IH _ H) as [i [j [Hij [Hi Hj]]]].
      exists (S i), j. split; [nia|].
      split; [exact Hi | exact Hj].
Qed.

Lemma dist2_le_zero (p q : Q * Q) :
  scipy.dist2 p q <= 0 -> fst p == fst q /\ snd p == snd q.
Proof.
  unfold scipy.dist2; destruct p as [p1 p2], q as [q1 q2]; simpl.
  intros H.
  assert (Hz : p1 - q1 == 0 /\ p2 - q2 == 0).
  { revert H. generalize (p1 - q1) (p2 - q2). intros x y H; split; nra. }
  destruct Hz; split; lra.
Qed.

Lemma dist2_same (p q : Q * Q) :
  fst p == fst q -> snd p == snd q -> scipy.dist2 p q == 0.
Proof.
  unfold scipy.dist2; destruct p as [p1 p2], q as [q1 q2]; simpl.
  intros H1 H2.
  assert (Hx : p1 - q1 == 0) by lra.
  assert (Hy : p2 - q2 == 0) by lra.
  rewrite Hx, Hy. ring.
Qed.

Section ExactNode.

Variable self : TPXO.t.
Variable a : list (list (list Q)).
Variable c : string.
Variable v : Q * Q.
Variables i j : nat.
Variables u t w : Q.

Let d := TPXO.dataset self.

Hypothesis Hwf : wf_dataset d = true.
Hypothesis Hlen : length a = 15%nat.
Hypothesis Hrect :
  forall s, In s a ->
            rect (length (lon_axis d)) (length (lat_axis d)) s = true.
Hypothesis Hc : In c TPXO.CONSTITUENTS.
Hypothesis Hlon : increasing (lon_axis d) = true.
Hypothesis Hlat : increasing (lat_axis d) = true.
Hypothesis HL : (2 <= length (lon_axis d))%nat.
Hypothesis HM : (2 <= length (lat_axis d))%nat.
Hypothesis Hneg : Qlt_bool (fst v) 0 = true.
Hypothesis Hu : nth_error (lon_axis d) i = Some u.
Hypothesis Ht : nth_error (lat_axis d) j = Some t.
Hypothesis Hvu : fst v + 360 == u.
Hypothesis Hvt : snd v == t.
Hypothesis Hw :
  nth_error (np.flatten (constituent_slice a c))
            (i * length (lat_axis d) + j) = Some w.

Lemma get_interpolation_exact_node :
  TPXO._get_interpolation a c [v] self = (Ok [Fin w], self).
Proof.
  assert (Ex : TPXO._x [v] = [fst v + 360])
    by (unfold TPXO._x; simpl; rewrite Hneg; reflexivity).
  assert (Hx : TPXO._x [v] <> []) by (rewrite Ex; discriminate).
  assert (Hb : np.broadcast (TPXO._x [v]) (TPXO._y [v])
               = Ok [(fst v + 360, snd v)])
    by (rewrite Ex; reflexivity).
  destruct (increasing_spacing_nonneg _ Hlon HL) as [dx [Edx Hdx]].
  destruct (increasing_spacing_nonneg _ Hlat HM) as [dy [Edy Hdy]].
  assert (Hnode : In (u, t) (candidate_points d [v])).
  { unfold candidate_points. apply filter_In. split.
    - unfold grid_points. apply in_prod; eapply nth_error_In; eassumption.
    - unfold padded_bbox, grid_dx, grid_dy. rewrite Ex, Edx, Edy.
      apply in_bbox_intervals.
      unfold qmin, qmax, TPXO._y; simpl. lra. }
  assert (Hcand : candidate_points d [v] <> [])
    by (intros E; rewrite E in Hnode; destruct Hnode).
  destruct (get_interpolation_nearest
              self a c [v] Hwf Hlen Hrect Hc Hx _ Hcand Hb)
    as [out [E [Hl Hn]]].
  destruct (Hn 0%nat _ eq_refl) as [p [w' [Ho [Hin Hmin]]]].
  assert (Hout : out = [Fin w']).
  { destruct out as [|o [|o' out]]; simpl in Hl; try discriminate.
    simpl in Ho; inversion Ho; reflexivity. }
  rewrite E, Hout. do 3 f_equal.
  (* the nearest candidate is at distance zero, hence the node itself *)
  pose proof (Hmin _ Hnode) as Hle.
  rewrite (dist2_same (u, t) (fst v + 360, snd v)) in Hle
    by (simpl; lra).
  destruct (dist2_le_zero _ _ Hle) as [Hpx Hpy]; simpl in Hpx, Hpy.
  unfold candidates in Hin. apply filter_In in Hin; destruct Hin as [Hin _].
  destruct (in_combine_nth _ _ _ _ Hin) as [k [Hk Hkw]].
  destruct p as [p1 p2]. unfold grid_points in Hk.
  destruct (list_prod_nth_inv _ _ _ _ _ Hk) as [i' [j' [Hij [Hi' Hj']]]].
  simpl in Hpx, Hpy.
  assert (i' = i)
    by (apply (increasing_nth_inj _ _ _ _ _ Hlon Hi' Hu); lra).
  assert (j' = j)
    by (apply (increasing_nth_inj _ _ _ _ _ Hlat Hj' Ht); lra).
  subst i' j' k. pose proof Hw as Hw'. unfold d in Hw'.
  rewrite Hw' in Hkw. inversion Hkw; reflexivity.
Qed.

End ExactNode.

Lemma rect_entry (L M : nat) (s : list (list Q)) (i j : nat) :
  rect L M s = true -> (i < L)%nat -> (j < M)%nat ->
  exists row w,
    nth_error s i = Some row /\ nth_error row j = Some w
    /\ nth_error (np.flatten s) (i * M + j) = Some w.
Proof.
  intros Hr Hi Hj.
  pose proof (rect_length _ _ _ Hr) as Hl.
  destruct (nth_error s i) as [row|] eqn:Ei;
    [|apply nth_error_None in Ei; lia].
  pose proof (rect_rows _ _ _ row Hr (nth_error_In _ _ Ei)) as Hrow.
  destruct (nth_error row j) as [w|] eqn:Ej;
    [|apply nth_error_None in Ej; lia].
  exists row, w. split; [reflexivity|]. split; [exact Ej|].
  unfold rect in Hr; apply andb_true_iff in Hr.
  apply (flatten_nth_error M s i j row w); [apply Hr | exact Ei | exact Ej].
Qed.

(** On a well-formed dataset whose axes strictly increase and have at
    least two entries each, the lookup of a single point with negative
    longitude that sits on grid node [(i, j)] (its longitude plus 360 is
    [longitude[i]], its latitude is [latitude[j]]) returns exactly the
    value stored at [(i, j)] in the constituent's layer: the amplitude
    grid for [get_amplitude], the phase grid for [get_phase]. *)
Theorem lookup_at_grid_node_returns_stored_value :
  forall (self : TPXO.t) (constituent : string) (v : Q * Q)
         (i j : nat) (u t : Q),
    let d := TPXO.dataset self in
    wf_dataset d = true ->
    In constituent TPXO.CONSTITUENTS ->
    increasing (lon_axis d) = true ->
    increasing (lat_axis d) = true ->
    (2 <= length (lon_axis d))%nat ->
    (2 <= length (lat_axis d))%nat ->
    Qlt_bool (fst v) 0 = true ->
    nth_error (lon_axis d) i = Some u ->
    nth_error (lat_axis d) j = Some t ->
    fst v + 360 == u ->
    snd v == t ->
    (exists row w,
        nth_error (constituent_slice (ha_var d) constituent) i = Some row
        /\ nth_error row j = Some w
        /\ TPXO.get_amplitude constituent [v] self = (Ok [Fin w], self))
    /\ (exists row w,
           nth_error (constituent_slice (hp_var d) constituent) i = Some row
           /\ nth_error row j = Some w
           /\ TPXO.get_phase constituent [v] self = (Ok [Fin w], self)).
Proof.
  intros self c v i j u t d Hwf Hc Hlon Hlat HL HM Hneg Hu Ht Hvu Hvt.
  destruct (wf_dataset_facts d Hwf) as [_ _ _ _ Hla Hlp Hra Hrp].
  assert (Hi : (i < length (lon_axis d))%nat)
    by (apply nth_error_Some; congruence).
  assert (Hj : (j < length (lat_axis d))%nat)
    by (apply nth_error_Some; congruence).
  split.
  - destruct (catalog_layer (ha_var d) c Hc Hla) as [k [_ [_ Hin]]].
    destruct (rect_entry _ _ _ i j (Hra _ Hin) Hi Hj)
      as [row [w [Hrow [Hw Hflat]]]].
    exists row, w. split; [exact Hrow|]. split; [exact Hw|].
    rewrite get_amplitude_unfold.
    apply (get_interpolation_exact_node self (ha_var d) c v i j u t w);
      assumption.
  - destruct (catalog_layer (hp_var d) c Hc Hlp) as [k [_ [_ Hin]]].
    destruct (rect_entry _ _ _ i j (Hrp _ Hin) Hi Hj)
      as [row [w [Hrow [Hw Hflat]]]].
    exists row, w. split; [exact Hrow|]. split; [exact Hw|].
    rewrite get_phase_unfold.
    apply (get_interpolation_exact_node self (hp_var d) c v i j u t w);
      assumption.
Qed.

Lemma lookup_at_grid_node_returns_stored_value_witness :
  let d := example_dataset in
  (exists row w,
      nth_error (constituent_slice (ha_var d) "MS4") 3 = Some row
      /\ nth_error row 2 = Some w
      /\ TPXO.get_amplitude "MS4" [(-169, 2)] example_tpxo
         = (Ok [Fin w], example_tpxo))
  /\ (exists row w,
         nth_error (constituent_slice (hp_var d) "MS4") 3 = Some row
         /\ nth_error row 2 = Some w
         /\ TPXO.get_phase "MS4" [(-169, 2)] example_tpxo
            = (Ok [Fin w], example_tpxo)).
Proof.
  apply (lookup_at_grid_node_returns_stored_value
           example_tpxo "MS4" (-169, 2) 3 2 191 2).
  - vm_compute; reflexivity.
  - simpl; auto 20.
  - reflexivity.
  - reflexivity.
  - simpl; lia.
  - simpl; lia.
  - reflexivity.
  - reflexivity.
  - reflexivity.
  - reflexivity.
  - reflexivity.
Defined.

(** ** Pruning to the bounding box *)



Section PruningIsSound.

Variable self : TPXO.t.
Variable a : list (list (list Q)).
Variable c : string.
Variable vs : list (Q * Q).
Variable n : nat.
Variable v : Q * Q.
Variables dx dy : Q.
Variable g0 : Q * Q.

Let d := TPXO.dataset self.
Let q : Q * Q := (fst v + 360, snd v).

Hypothesis Hwf : wf_dataset d = true.
Hypothesis Hlen : length a = 15%nat.
Hypothesis Hrect :
  forall s, In s a ->
            rect (length (lon_axis d)) (length (lat_axis d)) s = true.
Hypothesis Hc : In c TPXO.CONSTITUENTS.
Hypothesis Hneg : all_negative vs = true.
Hypothesis Hn : nth_error vs n = Some v.
Hypothesis Edx : grid_dx d = Fin dx.
Hypothesis Edy : grid_dy d = Fin dy.
Hypothesis Hdx : 0 <= dx.
Hypothesis Hdy : 0 <= dy.
Hypothesis Hg0 : In g0 (grid_points d).
Hypothesis Hnear_x : scipy.dist2 g0 q <= 4 * (dx * dx).
Hypothesis Hnear_y : scipy.dist2 g0 q <= 4 * (dy * dy).


End PruningIsSound.



(** ** Construction, in general *)

(** [__init__] settles on one file name (the argument before the
    environment variable before the default path) and its outcome
    depends on that name alone.  When it succeeds, [self.path] is set
    and [self.dataset] is the dataset opened at that path; when it
    fails, either the base class left no path and the error is the
    module's own FileNotFoundError, or the error is the one that opening
    the dataset raised. *)
Theorem init_resolution_and_outcome :
  forall (DEFAULT_PATH : string) (getenv : option string)
         (TidalDataset_init : string -> option string)
         (netCDF4_Dataset : string -> result Dataset)
         (argument : option string),
    let f := resolved_filename DEFAULT_PATH getenv argument in
    TPXO.__init__ DEFAULT_PATH getenv TidalDataset_init netCDF4_Dataset
                  argument
    = TPXO.__init__ DEFAULT_PATH None TidalDataset_init netCDF4_Dataset
                    (Some f)
    /\ match TPXO.__init__ DEFAULT_PATH getenv TidalDataset_init
                           netCDF4_Dataset argument with
       | Ok self =>
           exists p, TidalDataset_init f = Some p
                     /\ TPXO.path self = Some p
                     /\ netCDF4_Dataset p = Ok (TPXO.dataset self)
       | Err e =>
           (TidalDataset_init f = None
            /\ e = FileNotFoundError (TPXO.not_found_message None))
           \/ (exists p, TidalDataset_init f = Some p
                         /\ netCDF4_Dataset p = Err e)
       end.
Proof.
  intros D env T N arg f. split.
  - destruct arg as [x|]; [reflexivity|]. destruct env; reflexivity.
  - assert (E : TPXO.__init__ D env T N arg
                = match T f with
                  | Some p => match N p with
                              | Ok ds => Ok {| TPXO.path := T f;
                                               TPXO.dataset := ds |}
                              | Err e => Err e
                              end
                  | None => Err (FileNotFoundError
                                   (TPXO.not_found_message (T f)))
                  end).
    { subst f. destruct arg as [x|]; [reflexivity|].
      destruct env; reflexivity. }
    rewrite E. destruct (T f) as [p|] eqn:ET.
    + destruct (N p) as [ds|e] eqn:EN.
      * exists p. simpl. repeat split; assumption.
      * right. exists p. split; [reflexivity | exact EN].
    + left. split; reflexivity.
Qed.

(** ** What a point's value depends on *)

Lemma traverse_ok_at {A B} (f : A -> result B) (l : list A) (bs : list B)
      (i : nat) (x : A) :
  traverse f l = Ok bs -> nth_error l i = Some x ->
  exists b, nth_error bs i = Some b /\ f x = Ok b.
Proof.
  revert bs i; induction l as [|x0 r IH]; intros bs i; simpl.
  - intros _ E; destruct i; discriminate.
  - destruct (f x0) as [b0|e] eqn:E0; [|discriminate].
    destruct (traverse f r) as [bs'|e]; [|discriminate].
    intros E; inversion E; subst; clear E.
    destruct i as [|i]; simpl.
    + intros E; inversion E; subst. exists b0; split; [reflexivity|exact E0].
    + intros E. apply (IH bs' i eq_refl E).
Qed.

(** The box test only sees the bounds up to equality of rationals. *)
Lemma in_bbox_bounds_ext (m1 m2 n1 n2 m1' m2' n1' n2' : Q) (dx dy : float)
      (p : Q * Q) :
  m1 == m1' -> m2 == m2' -> n1 == n1' -> n2 == n2' ->
  TPXO.in_bbox m1 m2 n1 n2 dx dy p = TPXO.in_bbox m1' m2' n1' n2' dx dy p.
Proof.
  intros H1 H2 H3 H4.
  unfold TPXO.in_bbox, fge, fle, fsub, fadd, fdouble.
  destruct dx as [dx|]; destruct dy as [dy|]; try reflexivity.
  - rewrite H1, H2, H3, H4; reflexivity.
  - rewrite H1, H2; reflexivity.
Qed.

Section SameBoundingBox.

Variable self : TPXO.t.
Variable a : list (list (list Q)).
Variable c : string.
Variables vs vs' : list (Q * Q).
Variables i j : nat.
Variable v : Q * Q.

Let d := TPXO.dataset self.

Hypothesis Hwf : wf_dataset d = true.
Hypothesis Hlen : length a = 15%nat.
Hypothesis Hrect :
  forall s, In s a ->
            rect (length (lon_axis d)) (length (lat_axis d)) s = true.
Hypothesis Hc : In c TPXO.CONSTITUENTS.
Hypothesis Hneg : all_negative vs = true.
Hypothesis Hneg' : all_negative vs' = true.
Hypothesis Hminx : qmin (TPXO._x vs) == qmin (TPXO._x vs').
Hypothesis Hmaxx : qmax (TPXO._x vs) == qmax (TPXO._x vs').
Hypothesis Hminy : qmin (TPXO._y vs) == qmin (TPXO._y vs').
Hypothesis Hmaxy : qmax (TPXO._y vs) == qmax (TPXO._y vs').
Hypothesis Hi : nth_error vs i = Some v.
Hypothesis Hj : nth_error vs' j = Some v.

Lemma get_interpolation_same_bbox :
  match fst (TPXO._get_interpolation a c vs self),
        fst (TPXO._get_interpolation a c vs' self) with
  | Ok out, Ok out' => nth_error out i = nth_error out' j
  | Err e, Err e' => e = e'
  | _, _ => False
  end.
Proof.
  assert (Hne : forall l k, nth_error l k = Some v -> all_negative l = true ->
                            TPXO._x l <> []).
  { intros l k Hk Hn. rewrite (all_negative_x l Hn).
    destruct l; [destruct k; discriminate | discriminate]. }
  pose proof (Hne _ _ Hi Hneg) as Hx.
  pose proof (Hne _ _ Hj Hneg') as Hx'.
  assert (Hbox : forall p, padded_bbox d vs p = padded_bbox d vs' p)
    by (intros p; apply in_bbox_bounds_ext; assumption).
  assert (Hcp : candidate_points d vs = candidate_points d vs')
    by (unfold candidate_points; apply filter_ext; exact Hbox).
  assert (Hcv : candidates d vs (constituent_slice a c)
                = candidates d vs' (constituent_slice a c))
    by (unfold candidates; apply filter_ext; intros p; apply Hbox).
  pose proof (all_negative_broadcast vs Hneg) as Hb.
  pose proof (all_negative_broadcast vs' Hneg') as Hb'.
  destruct (get_interpolation_on_candidates self a c vs Hwf Hlen Hrect Hc Hx)
    as [_ [_ E]].
  destruct (get_interpolation_on_candidates self a c vs' Hwf Hlen Hrect Hc Hx')
    as [_ [_ E']].
  fold d in E, E'. rewrite Hb in E. rewrite Hb', <- Hcp, <- Hcv in E'.
  assert (Hdec : candidate_points d vs = [] \/ candidate_points d vs <> [])
    by (destruct (candidate_points d vs); [left; reflexivity
                                          | right; discriminate]).
  destruct Hdec as [Ecp|Hcand].
  - (* no candidate: both answer every point with NaN *)
    rewrite (get_interpolation_no_candidate self a c vs
               Hwf Hlen Hrect Hc Hx Ecp), Hb.
    rewrite Hcp in Ecp.
    rewrite (get_interpolation_no_candidate self a c vs'
               Hwf Hlen Hrect Hc Hx' Ecp), Hb'.
    simpl fst. cbv beta iota. rewrite !nth_error_map, Hi, Hj. reflexivity.
  - assert (Hcand' : candidate_points d vs' <> [])
      by (rewrite <- Hcp; exact Hcand).
    destruct (get_interpolation_nearest
                self a c vs Hwf Hlen Hrect Hc Hx _ Hcand Hb)
      as [out [Eo _]].
    destruct (get_interpolation_nearest
                self a c vs' Hwf Hlen Hrect Hc Hx' _ Hcand' Hb')
      as [out' [Eo' _]].
    rewrite Eo in E. rewrite Eo' in E'. rewrite Eo, Eo'; simpl fst.
    inversion E as [Et]. inversion E' as [Et'].
    symmetry in Et, Et'.
    assert (Hq : nth_error (map (fun v => (fst v + 360, snd v)) vs) i
                 = Some (fst v + 360, snd v))
      by (rewrite nth_error_map, Hi; reflexivity).
    assert (Hq' : nth_error (map (fun v => (fst v + 360, snd v)) vs') j
                  = Some (fst v + 360, snd v))
      by (rewrite nth_error_map, Hj; reflexivity).
    destruct (traverse_ok_at _ _ _ _ _ Et Hq) as [b [Hb1 Hf]].
    destruct (traverse_ok_at _ _ _ _ _ Et' Hq') as [b' [Hb1' Hf']].
    rewrite Hb1, Hb1'. rewrite Hf in Hf'. inversion Hf'; reflexivity.
Qed.

End SameBoundingBox.

(** The value that a point gets depends on the rest of the query only
    through the query's bounding box.  On a well-formed dataset, two
    queries with negative longitudes whose least and greatest normalised
    longitudes and latitudes are equal either both fail with the same
    error or both return, and a point that occurs in both (at position
    [i] in one, [j] in the other) gets the same value in both. *)
Theorem point_value_depends_on_bounding_box_only :
  forall (self : TPXO.t) (constituent : string)
         (vertices vertices' : list (Q * Q)) (i j : nat) (v : Q * Q),
    wf_dataset (TPXO.dataset self) = true ->
    In constituent TPXO.CONSTITUENTS ->
    all_negative vertices = true ->
    all_negative vertices' = true ->
    qmin (TPXO._x vertices) == qmin (TPXO._x vertices') ->
    qmax (TPXO._x vertices) == qmax (TPXO._x vertices') ->
    qmin (TPXO._y vertices) == qmin (TPXO._y vertices') ->
    qmax (TPXO._y vertices) == qmax (TPXO._y vertices') ->
    nth_error vertices i = Some v ->
    nth_error vertices' j = Some v ->
    match fst (TPXO.get_amplitude constituent vertices self),
          fst (TPXO.get_amplitude constituent vertices' self) with
    | Ok out, Ok out' => nth_error out i = nth_error out' j
    | Err e, Err e' => e = e'
    | _, _ => False
    end
    /\ match fst (TPXO.get_phase constituent vertices self),
             fst (TPXO.get_phase constituent vertices' self) with
       | Ok out, Ok out' => nth_error out i = nth_error out' j
       | Err e, Err e' => e = e'
       | _, _ => False
       end.
Proof.
  intros self c vs vs' i j v Hwf Hc Hn Hn' H1 H2 H3 H4 Hi Hj.
  destruct (wf_dataset_facts _ Hwf) as [_ _ _ _ Hla Hlp Hra Hrp].
  split.
  - rewrite !get_amplitude_unfold.
    apply (get_interpolation_same_bbox self _ c vs vs' i j v); assumption.
  - rewrite !get_phase_unfold.
    apply (get_interpolation_same_bbox self _ c vs vs' i j v); assumption.
Qed.

Lemma point_value_depends_on_bounding_box_only_witness :
  let vertices := [(-170, 1); (-172, 2); (-171, 1)] in
  let vertices' := [(-171, 1); (-172, 1); (-170, 2)] in
  match fst (TPXO.get_amplitude "M4" vertices example_tpxo),
        fst (TPXO.get_amplitude "M4" vertices' example_tpxo) with
  | Ok out, Ok out' => nth_error out 2 = nth_error out' 0
  | Err e, Err e' => e = e'
  | _, _ => False
  end
  /\ match fst (TPXO.get_phase "M4" vertices example_tpxo),
           fst (TPXO.get_phase "M4" vertices' example_tpxo) with
     | Ok out, Ok out' => nth_error out 2 = nth_error out' 0
     | Err e, Err e' => e = e'
     | _, _ => False
     end.
Proof.
  apply (point_value_depends_on_bounding_box_only
           example_tpxo "M4"
           [(-170, 1); (-172, 2); (-171, 1)]
           [(-171, 1); (-172, 1); (-170, 2)] 2 0 (-171, 1)).
  - vm_compute; reflexivity.
  - simpl; auto 20.
  - vm_compute; reflexivity.
  - vm_compute; reflexivity.
  - vm_compute; reflexivity.
  - vm_compute; reflexivity.
  - vm_compute; reflexivity.
  - vm_compute; reflexivity.
  - reflexivity.
  - reflexivity.
Defined.

(** ** The bounding box and the specification's normalisation *)

(** C6, at its failing input.  On a 7 x 3 grid with longitudes 186..192
    and latitudes 0..2, the query [(-170, 1); (187, 2)] has the
    normalised longitudes 190 and 187, but [_x] holds 190 only.  The
    lookup returns, and what it hands to [griddata] is the candidate set
    of the box around [_x]: 15 grid points, none at longitude 187, where
    the box around the normalised longitudes of both points holds all 21
    grid points, the node (187, 2) among them.  So the second point gets
    42, the value at (190, 2), where its own node holds 12. *)
Theorem candidate_set_ignores_nonnegative_longitudes :
  let d := example_grid [186; 187; 188; 189; 190; 191; 192] [0; 1; 2] in
  let self := {| TPXO.path := None; TPXO.dataset := d |} in
  let vertices := [(-170, 1); (187, 2)] in
  wf_dataset d = true
  /\ TPXO._x vertices = [190]
  /\ map (fun v => normalize_longitude (fst v)) vertices = [190; 187]
  /\ TPXO.get_amplitude "M2" vertices self
     = (scipy.griddata_nearest
          (map fst (candidate_points d vertices))
          (map snd (candidate_points d vertices))
          (map snd (candidates d vertices (constituent_slice (ha_var d) "M2")))
          (TPXO._x vertices) (TPXO._y vertices), self)
  /\ fst (TPXO.get_amplitude "M2" vertices self) = Ok [Fin 41; Fin 42]
  /\ length (candidate_points d vertices) = 15%nat
  /\ existsb (fun p => Qeq_bool (fst p) 187) (candidate_points d vertices)
     = false
  /\ In (187, 2) (grid_points d)
  /\ specified_bbox d vertices (187, 2) = true
  /\ length (filter (specified_bbox d vertices) (grid_points d)) = 21%nat
  /\ getitem3 (ha_var d) 0 1 2 = Some 12.
Proof.
  repeat split; try (vm_compute; reflexivity).
  apply in_prod; simpl; auto.
Qed.

(** ** The arrays of a lookup *)

Lemma wf_dataset_axes (d : Dataset) :
  wf_dataset d = true ->
  rect (length (lon_z d)) (length (lat_axis d)) (lon_z d) = true
  /\ (1 <= length (lat_z d))%nat
  /\ (1 <= length (lat_axis d))%nat
  /\ length (lon_axis d) = length (lon_z d).
Proof.
  unfold wf_dataset; intros H.
  repeat (apply andb_true_iff in H; destruct H as [H ?]).
  apply Nat.leb_le in H.
  repeat match goal with
         | E : Nat.leb _ _ = true |- _ => apply Nat.leb_le in E
         end.
  split; [assumption|]. split.
  - match goal with
    | E : rect _ _ (lat_z d) = true |- _ => rewrite (rect_length _ _ _ E)
    end; assumption.
  - split; [assumption | unfold lon_axis; apply length_map].
Qed.

Lemma index_ok_in (c : string) (k : nat) :
  TPXO.index TPXO.CONSTITUENTS c = Ok k -> In c TPXO.CONSTITUENTS.
Proof.
  intros E. destruct (index_from_ok_nth _ _ _ _ E) as [i [_ [Hn _]]].
  eapply nth_error_In; exact Hn.
Qed.

Section AlignedArrays.

Variable self : TPXO.t.
Variable c : string.
Variable vs : list (Q * Q).
Variable k : nat.

Let d := TPXO.dataset self.
Let L := length (lon_axis d).
Let M := length (lat_axis d).

Hypothesis Hwf : wf_dataset d = true.
Hypothesis Hk : TPXO.index TPXO.CONSTITUENTS c = Ok k.

(** Position [i * M + j] of the flattened coordinate arrays. *)
Lemma flat_coordinates (i j : nat) :
  (i < L)%nat -> (j < M)%nat ->
  exists u v,
    getitem2 (lon_z d) i 0 = Some u
    /\ getitem2 (lat_z d) 0 j = Some v
    /\ nth_error (np.flatten (fst (np.meshgrid_ij (lon_axis d) (lat_axis d))))
                 (i * M + j) = Some u
    /\ nth_error (np.flatten (snd (np.meshgrid_ij (lon_axis d) (lat_axis d))))
                 (i * M + j) = Some v.
Proof.
  intros Hi Hj.
  destruct (wf_dataset_axes d Hwf) as [Hrl [Hlz [HM1 HLl]]].
  (* the longitude read by [x] at row [i] *)
  destruct (nth_error (lon_z d) i) as [row|] eqn:Er.
  2:{ apply nth_error_None in Er. unfold L in Hi. lia. }
  pose proof (rect_rows _ _ _ row Hrl (nth_error_In _ _ Er)) as Hrow.
  destruct row as [|u row]; [simpl in Hrow; lia|].
  assert (Hu : nth_error (lon_axis d) i = Some u).
  { unfold lon_axis. rewrite nth_error_map, Er. reflexivity. }
  (* the latitude read by [y] at column [j] *)
  destruct (nth_error (lat_axis d) j) as [v|] eqn:Ev.
  2:{ apply nth_error_None in Ev. unfold M in Hj. lia. }
  assert (Hv : getitem2 (lat_z d) 0 j = Some v).
  { unfold getitem2, lat_axis in *.
    destruct (lat_z d) as [|r0 rest]; [simpl in Hlz; lia|]. exact Ev. }
  exists u, v.
  split; [unfold getitem2; rewrite Er; reflexivity|].
  split; [exact Hv|].
  pose proof (list_prod_nth_error (lon_axis d) (lat_axis d) i j u v Hu Ev)
    as Hp.
  rewrite meshgrid_flatten_fst, meshgrid_flatten_snd, !nth_error_map.
  fold M in Hp. rewrite Hp. split; reflexivity.
Qed.

(** Position [i * M + j] of the flattened slice of a grid of 15
    well-shaped layers. *)
Lemma flat_slice (a : list (list (list Q))) (i j : nat) :
  length a = 15%nat ->
  (forall s, In s a -> rect L M s = true) ->
  (i < L)%nat -> (j < M)%nat ->
  length (np.flatten (constituent_slice a c)) = (L * M)%nat
  /\ exists w,
      getitem3 a k i j = Some w
      /\ nth_error (np.flatten (constituent_slice a c)) (i * M + j) = Some w.
Proof.
  intros Hlen Hrect Hi Hj.
  destruct (catalog_layer a c (index_ok_in c k Hk) Hlen)
    as [k' [Hk' [Hl Hin]]].
  rewrite Hk in Hk'. inversion Hk'; subst k'.
  pose proof (Hrect _ Hin) as Hr.
  split; [apply (flatten_length _ _ _ Hr)|].
  destruct (rect_entry _ _ _ i j Hr Hi Hj) as [row [w [Hrow [Hw Hflat]]]].
  exists w. split; [|exact Hflat].
  unfold getitem3, getitem2. unfold TPXO.layer in Hl.
  destruct (nth_error a k) as [s|]; [|discriminate].
  inversion Hl; subst s. rewrite Hrow. exact Hw.
Qed.

Lemma lookup_arrays_aligned_holds :
  TPXO._x vs <> [] -> lookup_arrays_aligned self c vs k.
Proof.
  intros Hx. unfold lookup_arrays_aligned. fold d. fold L. fold M.
  destruct (wf_dataset_facts d Hwf) as [HL HM _ _ Hla Hlp Hra Hrp].
  fold L in HL, Hra, Hrp. fold M in HM, Hra, Hrp.
  pose proof (index_ok_in c k Hk) as Hc.
  assert (Hgp : length (grid_points d) = (L * M)%nat)
    by (unfold grid_points; apply length_prod).
  split; [|split].
  - rewrite meshgrid_flatten_fst, meshgrid_flatten_snd, !length_map.
    fold (grid_points d). rewrite Hgp.
    destruct (flat_slice (ha_var d) 0 0 Hla Hra) as [Ha _]; [lia | lia|].
    destruct (flat_slice (hp_var d) 0 0 Hlp Hrp) as [Hp _]; [lia | lia|].
    auto.
  - intros i j Hi Hj.
    destruct (flat_coordinates i j Hi Hj) as [u [v [H1 [H2 [H3 H4]]]]].
    destruct (flat_slice (ha_var d) i j Hla Hra Hi Hj) as [_ [wa [H5 H6]]].
    destruct (flat_slice (hp_var d) i j Hlp Hrp Hi Hj) as [_ [wp [H7 H8]]].
    exists u, v, wa, wp. repeat split; assumption.
  - set (xs := np.flatten (fst (np.meshgrid_ij (lon_axis d) (lat_axis d)))).
    set (ys := np.flatten (snd (np.meshgrid_ij (lon_axis d) (lat_axis d)))).
    assert (Hidx : TPXO._idx xs ys (qmin (TPXO._x vs)) (qmax (TPXO._x vs))
                             (qmin (TPXO._y vs)) (qmax (TPXO._y vs))
                             (grid_dx d) (grid_dy d)
                   = np.where_ (map (padded_bbox d vs) (grid_points d))).
    { unfold TPXO._idx, xs, ys. rewrite meshgrid_flatten_combine.
      reflexivity. }
    rewrite Hidx.
    assert (Hvals : forall a,
               length a = 15%nat ->
               (forall s, In s a -> rect L M s = true) ->
               np.take (np.flatten (constituent_slice a c))
                       (np.where_ (map (padded_bbox d vs) (grid_points d)))
               = Ok (map snd (candidates d vs (constituent_slice a c)))
               /\ TPXO._get_interpolation a c vs self
                  = (scipy.griddata_nearest
                       (map fst (candidate_points d vs))
                       (map snd (candidate_points d vs))
                       (map snd (candidates d vs (constituent_slice a c)))
                       (TPXO._x vs) (TPXO._y vs), self)).
    { intros a Hlen Hrect.
      destruct (catalog_layer a c Hc Hlen) as [k' [Hk' [Hl Hin]]].
      pose proof (Hrect _ Hin) as Hr.
      assert (Hfl : length (np.flatten (constituent_slice a c))
                    = length (grid_points d))
        by (rewrite (flatten_length _ _ _ Hr), Hgp; reflexivity).
      split.
      - unfold candidates.
        rewrite <- (map_snd_combine_same (grid_points d)
                      (np.flatten (constituent_slice a c)))
          at 1 by (symmetry; exact Hfl).
        rewrite <- (map_fst_combine_same (grid_points d)
                      (np.flatten (constituent_slice a c)))
          at 2 by (symmetry; exact Hfl).
        rewrite map_map.
        apply (take_where snd (fun pv => padded_bbox d vs (fst pv))).
      - apply (get_interpolation_run self a c vs k' _ Hwf Hk' Hl Hr Hx). }
    destruct (Hvals (ha_var d) Hla Hra) as [Eva Era].
    destruct (Hvals (hp_var d) Hlp Hrp) as [Evp Erp].
    exists (map fst (candidate_points d vs)),
           (map snd (candidate_points d vs)),
           (map snd (candidates d vs (constituent_slice (ha_var d) c))),
           (map snd (candidates d vs (constituent_slice (hp_var d) c))).
    split.
    { unfold xs. rewrite meshgrid_flatten_fst.
      apply (take_where fst (padded_bbox d vs) (grid_points d)). }
    split.
    { unfold ys. rewrite meshgrid_flatten_snd.
      apply (take_where snd (padded_bbox d vs) (grid_points d)). }
    split; [exact Eva|]. split; [exact Evp|].
    split; [rewrite get_amplitude_unfold; exact Era
           | rewrite get_phase_unfold; exact Erp].
Qed.

End AlignedArrays.

(** C7. In a lookup on a well-formed dataset, for a constituent that the
    catalog resolves to position [k], the flattened coordinate arrays
    are the Cartesian product of the longitude and latitude axes with
    longitude slowest and latitude fastest, and the flattened slices of
    the amplitude and phase grids at [k] are aligned with them: with
    axis lengths [(L, M)], flat position [i * M + j] holds
    [lon_z[i][0]], [lat_z[0][j]] and the grid values at [(k, i, j)], and
    these are the arrays whose entries at [_idx] the lookup hands to
    [griddata]. *)
Theorem lookup_arrays_are_aligned :
  forall (self : TPXO.t) (constituent : string) (vertices : list (Q * Q))
         (k : nat),
    wf_dataset (TPXO.dataset self) = true ->
    TPXO.index TPXO.CONSTITUENTS constituent = Ok k ->
    TPXO._x vertices <> [] ->
    lookup_arrays_aligned self constituent vertices k.
Proof.
  intros self c vs k Hwf Hk Hx.
  apply lookup_arrays_aligned_holds; assumption.
Qed.

Lemma lookup_arrays_are_aligned_witness :
  lookup_arrays_aligned example_tpxo "N2" [(-170, 1); (-171, 2)] 2.
Proof.
  apply (lookup_arrays_are_aligned example_tpxo "N2" [(-170, 1); (-171, 2)] 2).
  - vm_compute; reflexivity.
  - reflexivity.
  - vm_compute; discriminate.
Defined.
